(** * Signal-Desktop: two view components, embedded and verified

    - [EditConversationAttributesModal]
      (ts/components/conversation/conversation-details/EditConversationAttributesModal.tsx)
    - [StoryViewsNRepliesModal] (ts/components/StoryViewsNRepliesModal.tsx)

    Each component is a function from props and hook state to a tree of
    elements plus handlers.  Hook state is an explicit record, callbacks
    that leave the component are recorded as effects, and the one
    asynchronous task (avatar path to bytes) is a step of a small machine
    whose body runs in a state-and-exception monad. *)

From stdpp Require Import gmap strings list.
From Stdlib Require Import ZArith.
From Stdlib.Strings Require Import Byte.

Open Scope string_scope.

(** ** JavaScript values shared by both components *)

Definition ArrayBuffer : Type := list byte.

(** JS truthiness of an optional string ([undefined] and [''] are falsy). *)
Definition truthy_string (s : option string) : bool :=
  match s with
  | Some s => bool_decide (s ≠ "")
  | None => false
  end.

(** JS truthiness of an optional boolean. *)
Definition truthy_bool (b : option bool) : bool :=
  match b with
  | Some b => b
  | None => false
  end.

(** JS truthiness of [array.length]. *)
Definition truthy_length {A} (l : list A) : bool :=
  bool_decide (length l ≠ 0).

(** JS truthiness of a possibly undefined object. *)
Definition truthy_object {A} (o : option A) : bool :=
  match o with
  | Some _ => true
  | None => false
  end.

Module EditConversationAttributesModal.

(** [const TEMPORARY_AVATAR_VALUE = new ArrayBuffer(0)] *)
Definition TEMPORARY_AVATAR_VALUE : ArrayBuffer := [].

Inductive RequestState := Inactive | InactiveWithError | Active.

#[global] Instance RequestState_eq_dec : EqDecision RequestState.
Proof. solve_decision. Defined.

(** The values a field of the request object can hold. *)
Inductive JsValue :=
| JsUndefined
| JsString (s : string)
| JsArrayBuffer (b : ArrayBuffer).

Definition avatarValue (a : option ArrayBuffer) : JsValue :=
  match a with
  | Some b => JsArrayBuffer b
  | None => JsUndefined
  end.

(** The data props; [i18n], [makeRequest] and [onClose] are callbacks,
    their invocations are recorded as effects below. *)
Record PropsType := {
  avatarPath : option string;
  requestState : RequestState;
  title : string;
}.

(** Hook state: the two [useRef] cells and the three [useState] cells;
    [workingTitle] is the [title] cell, named apart from the prop. *)
Record State := {
  startingTitleRef : string;
  startingAvatarPathRef : option string;
  avatar : option ArrayBuffer;
  workingTitle : string;
  hasAvatarChanged : bool;
}.

(** First render: initial values of the hooks. *)
Definition mount (p : PropsType) : State := {|
  startingTitleRef := title p;
  startingAvatarPathRef := avatarPath p;
  avatar := if truthy_string (avatarPath p)
            then Some TEMPORARY_AVATAR_VALUE else None;
  workingTitle := title p;
  hasAvatarChanged := false;
|}.

Definition setAvatar (a : option ArrayBuffer) (s : State) : State :=
  {| startingTitleRef := startingTitleRef s;
     startingAvatarPathRef := startingAvatarPathRef s;
     avatar := a;
     workingTitle := workingTitle s;
     hasAvatarChanged := hasAvatarChanged s |}.

Definition setTitle (t : string) (s : State) : State :=
  {| startingTitleRef := startingTitleRef s;
     startingAvatarPathRef := startingAvatarPathRef s;
     avatar := avatar s;
     workingTitle := t;
     hasAvatarChanged := hasAvatarChanged s |}.

Definition setHasAvatarChanged (b : bool) (s : State) : State :=
  {| startingTitleRef := startingTitleRef s;
     startingAvatarPathRef := startingAvatarPathRef s;
     avatar := avatar s;
     workingTitle := workingTitle s;
     hasAvatarChanged := b |}.

(** [AvatarInput]'s [onChange]. *)
Definition onChangeAvatar (newAvatar : option ArrayBuffer) (s : State) : State :=
  setHasAvatarChanged true (setAvatar newAvatar s).

(** ** Values derived on each render *)

Definition hasChangedExternally (s : State) (p : PropsType) : bool :=
  bool_decide (startingAvatarPathRef s ≠ avatarPath p)
  || bool_decide (startingTitleRef s ≠ title p).

Definition hasTitleChanged (s : State) (p : PropsType) : bool :=
  bool_decide (workingTitle s ≠ title p).

Definition isRequestActive (p : PropsType) : bool :=
  bool_decide (requestState p = Active).

Definition canSubmit (s : State) (p : PropsType) : bool :=
  negb (isRequestActive p)
  && (hasChangedExternally s p || hasTitleChanged s p || hasAvatarChanged s)
  && bool_decide (0 < String.length (workingTitle s)).

(** The [disabled] attribute of the submit button. *)
Definition submitDisabled (s : State) (p : PropsType) : bool :=
  negb (canSubmit s p).

(** ** Submitting *)

Inductive Effect :=
| PreventDefault
| MakeRequest (request : gmap string JsValue)
| OnClose.

Definition request (s : State) (p : PropsType) : gmap string JsValue :=
  let request := ∅ in
  let request :=
    if hasAvatarChanged s
    then <["avatar" := avatarValue (avatar s)]> request else request in
  let request :=
    if hasTitleChanged s p
    then <["title" := JsString (workingTitle s)]> request else request in
  request.

Definition onSubmit (s : State) (p : PropsType) : list Effect :=
  [PreventDefault; MakeRequest (request s p)].

(** ** The avatar effect: image path to bytes, cancelable on unmount *)

Record JsError := { message : string }.

Inductive Completion (A : Type) :=
| Normal (a : A)
| Throw (err : JsError).
Arguments Normal {A} a.
Arguments Throw {A} err.

Definition cbind {A B} (c : Completion A) (k : A → Completion B) : Completion B :=
  match c with
  | Normal a => k a
  | Throw err => Throw err
  end.

Record Canvas := {
  width : Z;
  height : Z;
  drawn : option string;
}.

(** What the browser answers to the calls [imagePathToArrayBuffer] makes:
    whether [canvas.getContext('2d')] is non-null, how [image.decode()]
    settles (the decoded width and height, or a rejection) and how
    [canvasToArrayBuffer] settles. *)
Record Dom := {
  getContext : bool;
  decode : string → Completion (Z * Z);
  canvasToArrayBuffer : Canvas → Completion ArrayBuffer;
}.

Definition imagePathToArrayBuffer (dom : Dom) (src : string)
    : Completion ArrayBuffer :=
  if negb (getContext dom) then
    Throw {| message :=
      "imagePathToArrayBuffer: could not get canvas rendering context" |}
  else
    cbind (decode dom src) (λ '(w, h),
      let canvas := {| width := w; height := h; drawn := Some src |} in
      cbind (canvasToArrayBuffer dom canvas) (λ result, Normal result)).

(** The closure created by [useEffect]: none when the starting avatar
    path is falsy (the cleanup is [noop]), otherwise the path, the
    [shouldCancel] variable and whether the promise has settled. *)
Inductive EffectState :=
| NoTask
| Task (src : string) (shouldCancel : bool) (settled : bool).

Record Instance := {
  hooks : State;
  effect : EffectState;
  warnings : list string;
}.

(** State and exceptions, for the body of the async function. *)
Definition M (A : Type) : Type := Instance → Completion A * Instance.

Definition ret {A} (a : A) : M A := λ i, (Normal a, i).

Definition bind {A B} (m : M A) (k : A → M B) : M B :=
  λ i, match m i with
       | (Normal a, i') => k a i'
       | (Throw err, i') => (Throw err, i')
       end.

Definition lift {A} (c : Completion A) : M A := λ i, (c, i).

Definition try_catch {A} (body : M A) (handler : JsError → M A) : M A :=
  λ i, match body i with
       | (Normal a, i') => (Normal a, i')
       | (Throw err, i') => handler err i'
       end.

Notation "'let*' x ':=' m 'in' k" := (bind m (λ x, k))
  (at level 10, x name, m at level 100, k at level 200).

Definition readShouldCancel : M bool :=
  λ i, (Normal match effect i with
               | Task _ c _ => c
               | NoTask => false
               end, i).

Definition setAvatarM (a : option ArrayBuffer) : M unit :=
  λ i, (Normal (),
        {| hooks := setAvatar a (hooks i);
           effect := effect i;
           warnings := warnings i |}).

Definition log_warn (msg : string) : M unit :=
  λ i, (Normal (),
        {| hooks := hooks i;
           effect := effect i;
           warnings := warnings i ++ [msg] |}).

(** The body of the async arrow function, run when the awaited promise
    settles. *)
Definition avatarTask (dom : Dom) (startingAvatarPath : string) : M unit :=
  try_catch
    (let* buffer := lift (imagePathToArrayBuffer dom startingAvatarPath) in
     let* shouldCancel := readShouldCancel in
     if shouldCancel : bool then ret ()
     else setAvatarM (Some buffer))
    (λ err,
       log_warn ("Failed to convert image URL to array buffer. Error message: "
                 ++ message err)).

(** The effect runs once, after the first render. *)
Definition useEffect (s : State) : EffectState :=
  match startingAvatarPathRef s with
  | Some startingAvatarPath =>
      if bool_decide (startingAvatarPath ≠ "")
      then Task startingAvatarPath false false
      else NoTask
  | None => NoTask
  end.

Definition start (p : PropsType) : Instance :=
  {| hooks := mount p; effect := useEffect (mount p); warnings := [] |}.

(** The cleanup returned by the effect. *)
Definition cleanup (e : EffectState) : EffectState :=
  match e with
  | NoTask => NoTask
  | Task src _ settled => Task src true settled
  end.

Inductive Event :=
| ChangeTitle (t : string)
| ChangeAvatar (newAvatar : option ArrayBuffer)
| Settle (dom : Dom)
| Unmount.

Definition step (ev : Event) : M unit :=
  λ i,
    match ev with
    | ChangeTitle t =>
        (Normal (), {| hooks := setTitle t (hooks i);
                       effect := effect i; warnings := warnings i |})
    | ChangeAvatar newAvatar =>
        (Normal (), {| hooks := onChangeAvatar newAvatar (hooks i);
                       effect := effect i; warnings := warnings i |})
    | Settle dom =>
        match effect i with
        | Task src _ false =>
            let '(c, i') := avatarTask dom src i in
            (c, {| hooks := hooks i';
                   effect := match effect i' with
                             | Task src c _ => Task src c true
                             | NoTask => NoTask
                             end;
                   warnings := warnings i' |})
        | _ => (Normal (), i)
        end
    | Unmount =>
        (Normal (), {| hooks := hooks i; effect := cleanup (effect i);
                       warnings := warnings i |})
    end.

(** A run stops at the first event whose handler throws. *)
Fixpoint run (evs : list Event) : M unit :=
  match evs with
  | [] => ret ()
  | ev :: evs => let* done := step ev in run evs
  end.

End EditConversationAttributesModal.

Module StoryViewsNRepliesModal.

Inductive Tab := Replies | Views.

(** [a === b] on tabs. *)
Definition Tab_beq (a b : Tab) : bool :=
  match a, b with
  | Replies, Replies | Views, Views => true
  | _, _ => false
  end.

(** The conversation fields read from a reply and from a view's
    recipient (declared in ../types/Stories). *)
Record ConversationFields := {
  id : string;
  acceptedMessageRequest : option bool;
  avatarPath : option string;
  color : option string;
  isMe : option bool;
  name : option string;
  profileName : option string;
  sharedGroupNames : option (list string);
  title : string;
}.

Record ReplyType := {
  author :> ConversationFields;
  contactNameColor : option string;
  body : option string;
  reactionEmoji : option string;
  timestamp : Z;
  deletedForEveryone : option bool;
}.

Record StorySendStateType := {
  recipient : ConversationFields;
  updatedAt : option Z;
}.

(** The closures of this component that are handed to child elements. *)
Inductive Handler :=
| h_focusComposer
| h_insertEmoji
| h_onEditorStateChange
| h_onSubmit
| h_toggleReactionPicker
| h_closeReactionPicker
| h_pickReaction
| h_setBottom
| h_setReferenceElement
| h_setPopperElement.

Record AvatarProps := {
  avatar_acceptedMessageRequest : option bool;
  avatar_avatarPath : option string;
  avatar_color : string;
  avatar_conversationType : string;
  avatar_isMe : bool;
  avatar_name : option string;
  avatar_profileName : option string;
  avatar_sharedGroupNames : list string;
  avatar_size : Z;
  avatar_title : string;
}.

(** [classNames(...)]: the names whose condition holds, joined by a space. *)
Definition classNames (names : list (string * bool)) : string :=
  String.concat " " (map fst (List.filter snd names)).

(** [String(x)] of an optional string. *)
Definition String_of (s : option string) : string :=
  match s with
  | Some s => s
  | None => "undefined"
  end.

Section WithImports.

(** Types and functions imported from modules outside these sources. *)
Context {AttachmentType EmojiPickDataType BodyRangeType InputApi : Type}.
Context (getAvatarColor : option string → string).
Context (getStoryReplyText :
           (string → string) → option AttachmentType → string).

Record PropsType := {
  authorTitle : string;
  canReply : bool;
  i18n : string → string;
  isGroupStory : option bool;
  isMyStory : option bool;
  preferredReactionEmoji : list string;
  recentEmojis : option (list string);
  replies : list ReplyType;
  skinTone : option Z;
  storyPreviewAttachment : option AttachmentType;
  views : list StorySendStateType;
}.

(** Hook state read by the render and by the handlers. *)
Record State := {
  inputApiRef : option InputApi;
  messageBodyText : string;
  showReactionPicker : bool;
}.

Definition initialState : State :=
  {| inputApiRef := None; messageBodyText := ""; showReactionPicker := false |}.

(** The tree a render returns.  [Nothing] is a [false], [undefined] or
    [null] child; [Tabs] keeps its render prop as a function of the
    selected tab. *)
#[warnings="-register-all"] Inductive Element :=
| Nothing
| Text (s : string)
| Number (n : Z)
| Fragment (children : list Element)
| Div (className : option string) (key : option string)
      (children : list Element)
| DivRef (ref : Handler) (children : list Element)
| Span (className : string) (children : list Element)
| Button (ariaLabel className : string) (onClick ref : Handler)
| Avatar (props : AvatarProps)
| ContactName (contactNameColor : option string) (title : string)
| Emojify (text : string)
| MessageBody (text : string)
| MessageTimestamp (isRelativeTime : bool) (module : string) (timestamp : Z)
| Quote (authorTitle : string) (rawAttachment : option AttachmentType)
        (text : string)
| CompositionInput (draftText placeholder : string)
                   (onPickEmoji onSubmit : Handler)
                   (children : list Element)
| EmojiButton (onPickEmoji onClose : Handler)
              (recentEmojis : option (list string)) (skinTone : option Z)
| ReactionPicker (onClose onPick : Handler)
                 (preferredReactionEmoji : list string)
| Tabs (initialSelectedTab : Tab) (tabs : list (Tab * string))
       (children : Tab → Element)
| Modal (moduleClassName : string) (useFocusTrap : bool)
        (children : list Element).

(** A child slot holding a possibly undefined element. *)
Definition child (e : option Element) : Element :=
  match e with
  | Some e => e
  | None => Nothing
  end.

(** [cond && element] as a child. *)
Definition when (cond : bool) (e : Element) : Element :=
  if cond then e else Nothing.

Definition avatarOf (c : ConversationFields) : Element :=
  Avatar {| avatar_acceptedMessageRequest := acceptedMessageRequest c;
            avatar_avatarPath := avatarPath c;
            avatar_color := getAvatarColor (color c);
            avatar_conversationType := "direct";
            avatar_isMe := truthy_bool (isMe c);
            avatar_name := name c;
            avatar_profileName := profileName c;
            avatar_sharedGroupNames := default [] (sharedGroupNames c);
            avatar_size := 28;
            avatar_title := title c |}.

Definition composerElement (p : PropsType) (st : State) : option Element :=
  if negb (truthy_bool (isMyStory p)) && canReply p then
    Some (Fragment [
      when (negb (truthy_bool (isGroupStory p)))
        (Quote (authorTitle p) (storyPreviewAttachment p)
               (getStoryReplyText (i18n p) (storyPreviewAttachment p)));
      Div (Some "StoryViewsNRepliesModal__compose-container") None [
        Div (Some "StoryViewsNRepliesModal__composer") None [
          CompositionInput (messageBodyText st)
            (if truthy_bool (isGroupStory p)
             then i18n p "StoryViewer__reply-group"
             else i18n p "StoryViewer__reply")
            h_insertEmoji h_onSubmit
            [EmojiButton h_insertEmoji h_focusComposer
                         (recentEmojis p) (skinTone p)]
        ];
        Button (i18n p "StoryViewsNRepliesModal__react")
               "StoryViewsNRepliesModal__react"
               h_toggleReactionPicker h_setReferenceElement;
        when (showReactionPicker st)
          (DivRef h_setPopperElement [
             ReactionPicker h_closeReactionPicker h_pickReaction
                            (preferredReactionEmoji p)])
      ]
    ])
  else None.

(** One entry of [replies.map(...)]. *)
Definition replyElement (p : PropsType) (reply : ReplyType) : Element :=
  if truthy_string (reactionEmoji reply) then
    Div (Some "StoryViewsNRepliesModal__reaction") (Some (id reply)) [
      Div (Some "StoryViewsNRepliesModal__reaction--container") None [
        avatarOf reply;
        Div (Some "StoryViewsNRepliesModal__reaction--body") None [
          Div (Some "StoryViewsNRepliesModal__reply--title") None [
            ContactName (contactNameColor reply) (title reply)
          ];
          Text (i18n p "StoryViewsNRepliesModal__reacted");
          MessageTimestamp true "StoryViewsNRepliesModal__reply--timestamp"
                           (timestamp reply)
        ]
      ];
      Emojify (String_of (reactionEmoji reply))
    ]
  else
    Div (Some "StoryViewsNRepliesModal__reply") (Some (id reply)) [
      avatarOf reply;
      Div (Some (classNames [
             ("StoryViewsNRepliesModal__message-bubble", true);
             ("StoryViewsNRepliesModal__message-bubble--doe",
              truthy_bool (deletedForEveryone reply))
           ])) None [
        Div (Some "StoryViewsNRepliesModal__reply--title") None [
          ContactName (contactNameColor reply) (title reply)
        ];
        MessageBody
          (if truthy_bool (deletedForEveryone reply)
           then i18n p "message--deletedForEveryone"
           else String_of (body reply));
        MessageTimestamp false "StoryViewsNRepliesModal__reply--timestamp"
                         (timestamp reply)
      ]
    ].

Definition repliesElement (p : PropsType) : option Element :=
  if truthy_length (replies p) then
    Some (Div (Some "StoryViewsNRepliesModal__replies") None
              (map (replyElement p) (replies p) ++ [DivRef h_setBottom []]))
  else if truthy_bool (isGroupStory p) then
    Some (Div (Some "StoryViewsNRepliesModal__replies--none") None [
            Text (i18n p "StoryViewsNRepliesModal__no-replies")
          ])
  else None.

(** [view.updatedAt && <MessageTimestamp .../>]: an [undefined] stamp
    renders nothing, a zero stamp renders as the number itself. *)
Definition viewTimestamp (updatedAt : option Z) : Element :=
  match updatedAt with
  | None => Nothing
  | Some t =>
      if Z.eqb t 0 then Number t
      else MessageTimestamp false "StoryViewsNRepliesModal__view--timestamp" t
  end.

(** One entry of [views.map(...)]. *)
Definition viewElement (view : StorySendStateType) : Element :=
  Div (Some "StoryViewsNRepliesModal__view") (Some (id (recipient view))) [
    Div None None [
      avatarOf (recipient view);
      Span "StoryViewsNRepliesModal__view--name" [
        ContactName None (title (recipient view))
      ]
    ];
    viewTimestamp (updatedAt view)
  ].

Definition viewsElement (p : PropsType) : option Element :=
  if truthy_length (views p) then
    Some (Div (Some "StoryViewsNRepliesModal__views") None
              (map viewElement (views p)))
  else None.

Definition tabsElement (p : PropsType) (st : State) : option Element :=
  if truthy_length (views p) && truthy_length (replies p) then
    Some (Tabs Views
            [(Views, i18n p "StoryViewsNRepliesModal__tab--views");
             (Replies, i18n p "StoryViewsNRepliesModal__tab--replies")]
            (λ selectedTab,
               Fragment [
                 when (Tab_beq selectedTab Views)
                      (child (viewsElement p));
                 when (Tab_beq selectedTab Replies)
                      (Fragment [child (repliesElement p);
                                 child (composerElement p st)])
               ]))
  else None.

(** [a || b] on possibly undefined elements. *)
Definition or_else (a b : option Element) : option Element :=
  match a with
  | Some e => Some e
  | None => b
  end.

(** The component: [None] is the [null] it returns when there is
    nothing to show. *)
Definition StoryViewsNRepliesModal (p : PropsType) (st : State)
    : option Element :=
  if negb (truthy_object (tabsElement p st))
     && negb (truthy_object (viewsElement p))
     && negb (truthy_object (repliesElement p))
     && negb (truthy_object (composerElement p st))
  then None
  else
    Some (Modal "StoryViewsNRepliesModal"
            (truthy_object (composerElement p st)) [
            Div (Some (classNames [
                   ("StoryViewsNRepliesModal--group",
                    truthy_bool (isGroupStory p))
                 ])) None [
              match tabsElement p st with
              | Some tabs => tabs
              | None =>
                  Fragment [
                    child (or_else (viewsElement p) (repliesElement p));
                    child (composerElement p st)
                  ]
              end
            ]
          ]).

(** ** Handlers *)

Inductive Effect :=
| InputApi_focus (api : InputApi)
| InputApi_insertEmoji (api : InputApi) (e : EmojiPickDataType)
| InputApi_reset (api : InputApi)
| OnUseEmoji (e : EmojiPickDataType)
| OnReply (message : string) (mentions : list BodyRangeType) (timestamp : Z)
| OnReact (emoji : string).

Definition setMessageBodyText (text : string) (st : State) : State :=
  {| inputApiRef := inputApiRef st;
     messageBodyText := text;
     showReactionPicker := showReactionPicker st |}.

Definition setShowReactionPicker (b : bool) (st : State) : State :=
  {| inputApiRef := inputApiRef st;
     messageBodyText := messageBodyText st;
     showReactionPicker := b |}.

Definition focusComposer (st : State) : list Effect * State :=
  match inputApiRef st with
  | Some api => ([InputApi_focus api], st)
  | None => ([], st)
  end.

Definition insertEmoji (e : EmojiPickDataType) (st : State)
    : list Effect * State :=
  match inputApiRef st with
  | Some api => ([InputApi_insertEmoji api e; OnUseEmoji e], st)
  | None => ([], st)
  end.

(** [CompositionInput]'s [onSubmit]. *)
Definition onSubmit (message : string) (mentions : list BodyRangeType)
    (timestamp : Z) (st : State) : list Effect * State :=
  (match inputApiRef st with
   | Some api => [InputApi_reset api]
   | None => []
   end ++ [OnReply message mentions timestamp], st)%list.

Definition toggleReactionPicker (st : State) : list Effect * State :=
  ([], setShowReactionPicker (negb (showReactionPicker st)) st).

Definition closeReactionPicker (st : State) : list Effect * State :=
  ([], setShowReactionPicker false st).

Definition pickReaction (emoji : string) (st : State) : list Effect * State :=
  ([OnReact emoji], setShowReactionPicker false st).

(** ** Reading a rendered tree *)

(** Modelled from the spec: the [Tabs] component (./Tabs) is outside these
    sources.  It is taken to show its render prop at the selected tab, a
    tab control selecting between Views and Replies, and the selection
    starts at [initialSelectedTab].  [selection] gives the selected tab
    from the initial one. *)
Fixpoint nodesWith (selection : Tab → Tab) (e : Element) : list Element :=
  e :: match e with
       | Fragment children
       | Div _ _ children
       | DivRef _ children
       | Span _ children
       | CompositionInput _ _ _ _ children
       | Modal _ _ children => flat_map (nodesWith selection) children
       | Tabs initialSelectedTab _ children =>
           nodesWith selection (children (selection initialSelectedTab))
       | _ => []
       end.

(** The nodes on screen, in document order, when the user has selected
    [selectedTab]. *)
Definition nodes (selectedTab : Tab) : Element → list Element :=
  nodesWith (λ _, selectedTab).

(** The nodes on screen right after mounting. *)
Definition firstScreen : Element → list Element :=
  nodesWith (λ initialSelectedTab, initialSelectedTab).

(** The screen of a render result; [null] shows nothing. *)
Definition screen (view : Element → list Element) (e : option Element)
    : list Element :=
  match e with
  | Some e => view e
  | None => []
  end.

(** A reply row as it reads on screen: its key, and for a reaction the
    emoji shown, for a message whether the bubble carries the
    deleted-for-everyone class and the body texts shown. *)
Inductive Row :=
| ReactionRow (key : option string) (emoji : list string)
| MessageRow (key : option string) (marked : bool) (text : list string).

Definition emojiOf (e : Element) : list string :=
  match e with
  | Emojify text => [text]
  | _ => []
  end.

Definition messageTextOf (e : Element) : list string :=
  match e with
  | MessageBody text => [text]
  | _ => []
  end.

Definition isMarkedBubble (e : Element) : bool :=
  match e with
  | Div (Some c) _ _ =>
      String.eqb c ("StoryViewsNRepliesModal__message-bubble "
                    ++ "StoryViewsNRepliesModal__message-bubble--doe")
  | _ => false
  end.

(** The parts of the modal the properties speak about. *)
Inductive Landmark :=
| TabControl (initialSelectedTab : Tab)
| ViewsList
| RepliesList
| NoRepliesPlaceholder
| QuotePreview
| Composer
| ReactionTrigger
| ReplyRow (row : Row).

(** What a single node is, by its component or its class name. *)
Definition landmarkOf (e : Element) : list Landmark :=
  match e with
  | Tabs initialSelectedTab _ _ => [TabControl initialSelectedTab]
  | Quote _ _ _ => [QuotePreview]
  | CompositionInput _ _ _ _ _ => [Composer]
  | Button _ c _ _ =>
      if String.eqb c "StoryViewsNRepliesModal__react"
      then [ReactionTrigger] else []
  | Div (Some c) key children =>
      let inside := flat_map (nodes Replies) children in
      if String.eqb c "StoryViewsNRepliesModal__views" then [ViewsList]
      else if String.eqb c "StoryViewsNRepliesModal__replies" then [RepliesList]
      else if String.eqb c "StoryViewsNRepliesModal__replies--none"
      then [NoRepliesPlaceholder]
      else if String.eqb c "StoryViewsNRepliesModal__reaction"
      then [ReplyRow (ReactionRow key (flat_map emojiOf inside))]
      else if String.eqb c "StoryViewsNRepliesModal__reply"
      then [ReplyRow (MessageRow key (existsb isMarkedBubble inside)
                                 (flat_map messageTextOf inside))]
      else []
  | _ => []
  end.

(** The landmarks of a screen, in document order. *)
Definition landmarks (screen : list Element) : list Landmark :=
  flat_map landmarkOf screen.

Definition rowsOf (l : Landmark) : list Row :=
  match l with
  | ReplyRow row => [row]
  | _ => []
  end.

(** The reply rows of a screen, in document order. *)
Definition rows (screen : list Element) : list Row :=
  flat_map rowsOf (landmarks screen).

Definition isRow (l : Landmark) : bool :=
  match l with
  | ReplyRow _ => true
  | _ => false
  end.

Definition sameLandmark (a b : Landmark) : bool :=
  match a, b with
  | TabControl _, TabControl _
  | ViewsList, ViewsList
  | RepliesList, RepliesList
  | NoRepliesPlaceholder, NoRepliesPlaceholder
  | QuotePreview, QuotePreview
  | Composer, Composer
  | ReactionTrigger, ReactionTrigger
  | ReplyRow _, ReplyRow _ => true
  | _, _ => false
  end.

(** How many times a kind of landmark is on a screen. *)
Definition occurrences (kind : Landmark) (screen : list Element) : nat :=
  length (List.filter (sameLandmark kind) (landmarks screen)).

(** The handlers bound to [onPickEmoji] at a node. *)
Definition onPickEmojiOf (e : Element) : list Handler :=
  match e with
  | CompositionInput _ _ h _ _ => [h]
  | EmojiButton h _ _ _ => [h]
  | _ => []
  end.

Definition insertedOf (eff : Effect) : list EmojiPickDataType :=
  match eff with
  | InputApi_insertEmoji _ e => [e]
  | _ => []
  end.

Definition reportedOf (eff : Effect) : list EmojiPickDataType :=
  match eff with
  | OnUseEmoji e => [e]
  | _ => []
  end.

(** The row a reply is to read as: a reaction row when its reaction emoji
    is a non-empty string, otherwise a message row with the body text, or
    with the deleted placeholder and the marker when it was deleted for
    everyone. *)
Definition rowFor (p : PropsType) (reply : ReplyType) : Row :=
  let message :=
    MessageRow (Some (id reply))
      (truthy_bool (deletedForEveryone reply))
      [if truthy_bool (deletedForEveryone reply)
       then i18n p "message--deletedForEveryone"
       else String_of (body reply)] in
  match reactionEmoji reply with
  | Some emoji =>
      if bool_decide (emoji ≠ "") then ReactionRow (Some (id reply)) [emoji]
      else message
  | None => message
  end.

End WithImports.

End StoryViewsNRepliesModal.

(** * Sample inputs *)

Module Samples.
Import EditConversationAttributesModal.

Definition groupProps : PropsType :=
  {| avatarPath := Some "avatars/group.png";
     requestState := Inactive;
     title := "Book club" |}.

Definition pngBytes : ArrayBuffer := [x89; x50; x4e; x47]%byte.

(** A browser in which every call succeeds. *)
Definition workingDom : Dom :=
  {| getContext := true;
     decode := λ _, Normal (16, 16)%Z;
     canvasToArrayBuffer := λ _, Normal pngBytes |}.

(** A browser without a 2d canvas context. *)
Definition noContextDom : Dom :=
  {| getContext := false;
     decode := λ _, Normal (16, 16)%Z;
     canvasToArrayBuffer := λ _, Normal pngBytes |}.

(** A browser that cannot decode the image. *)
Definition brokenImageDom : Dom :=
  {| getContext := true;
     decode := λ _, Throw {| message := "The source image cannot be decoded." |};
     canvasToArrayBuffer := λ _, Normal pngBytes |}.

End Samples.

Module StorySamples.
Import StoryViewsNRepliesModal.

Definition ada : ConversationFields :=
  {| id := "conversation-ada";
     acceptedMessageRequest := Some true;
     avatarPath := None;
     color := None;
     isMe := None;
     name := Some "Ada";
     profileName := None;
     sharedGroupNames := None;
     title := "Ada" |}.

Definition adaSaw : StorySendStateType :=
  {| recipient := ada; updatedAt := Some 1656000000000%Z |}.

Definition adaWrote : ReplyType :=
  {| author := ada;
     contactNameColor := None;
     body := Some "Lovely";
     reactionEmoji := None;
     timestamp := 1656000001000%Z;
     deletedForEveryone := None |}.

Definition keys (key : string) : string := key.

Definition avatarColor (color : option string) : string :=
  default "A100" color.

Definition storyReplyText (i18n : string → string) (attachment : option unit)
    : string :=
  i18n "message--getNotificationText--text-with-emoji".

(** My own group story, seen by Ada, without replies. *)
Definition seenGroupStory : PropsType (AttachmentType := unit) :=
  {| authorTitle := "Me";
     canReply := true;
     i18n := keys;
     isGroupStory := Some true;
     isMyStory := Some true;
     preferredReactionEmoji := [];
     recentEmojis := None;
     replies := [];
     skinTone := None;
     storyPreviewAttachment := None;
     views := [adaSaw] |}.

(** A group story without views or replies. *)
Definition quietGroupStory : PropsType (AttachmentType := unit) :=
  {| authorTitle := "Me";
     canReply := true;
     i18n := keys;
     isGroupStory := Some true;
     isMyStory := Some true;
     preferredReactionEmoji := [];
     recentEmojis := None;
     replies := [];
     skinTone := None;
     storyPreviewAttachment := None;
     views := [] |}.

(** A story with one view and one reply. *)
Definition busyStory : PropsType (AttachmentType := unit) :=
  {| authorTitle := "Me";
     canReply := true;
     i18n := keys;
     isGroupStory := Some true;
     isMyStory := Some true;
     preferredReactionEmoji := [];
     recentEmojis := None;
     replies := [adaWrote];
     skinTone := None;
     storyPreviewAttachment := None;
     views := [adaSaw] |}.

(** A friend's story that may be replied to, with one view and one
    reply. *)
Definition friendsBusyStory : PropsType (AttachmentType := unit) :=
  {| authorTitle := "Ada";
     canReply := true;
     i18n := keys;
     isGroupStory := None;
     isMyStory := None;
     preferredReactionEmoji := [];
     recentEmojis := None;
     replies := [adaWrote];
     skinTone := None;
     storyPreviewAttachment := None;
     views := [adaSaw] |}.

(** A friend's group story that may be replied to, without views or
    replies. *)
Definition friendsGroupStory : PropsType (AttachmentType := unit) :=
  {| authorTitle := "Ada";
     canReply := true;
     i18n := keys;
     isGroupStory := Some true;
     isMyStory := None;
     preferredReactionEmoji := [];
     recentEmojis := None;
     replies := [];
     skinTone := None;
     storyPreviewAttachment := None;
     views := [] |}.

Definition freshState : State (InputApi := unit) := initialState.

End StorySamples.

(** * Properties of EditConversationAttributesModal *)

Module EditConversationAttributesModal_spec.
Import EditConversationAttributesModal.

Ltac unfold_monad :=
  unfold avatarTask, try_catch, bind, lift, ret, readShouldCancel,
    setAvatarM, log_warn in *.

(** ** The refs keep the props of the first render *)

Lemma step_normal ev i : fst (step ev i) = Normal ().
Proof.
  destruct ev as [t|a|dom|]; simpl; try reflexivity.
  destruct (effect i) as [|src c [|]] eqn:Heff; try reflexivity.
  unfold_monad.
  destruct (imagePathToArrayBuffer dom src) as [buffer|err]; simpl.
  - rewrite Heff. destruct c; reflexivity.
  - reflexivity.
Qed.

Lemma step_refs ev i :
  startingTitleRef (hooks (snd (step ev i))) = startingTitleRef (hooks i)
  ∧ startingAvatarPathRef (hooks (snd (step ev i)))
    = startingAvatarPathRef (hooks i).
Proof.
  destruct ev as [t|a|dom|]; simpl; try (split; reflexivity).
  destruct (effect i) as [|src c [|]] eqn:Heff; try (split; reflexivity).
  unfold_monad.
  destruct (imagePathToArrayBuffer dom src) as [buffer|err]; simpl.
  - rewrite Heff. destruct c; split; reflexivity.
  - split; reflexivity.
Qed.

Lemma run_cons ev evs i :
  run (ev :: evs) i = run evs (snd (step ev i)).
Proof.
  simpl. unfold bind.
  pose proof (step_normal ev i) as Hn.
  destruct (step ev i) as [c i']. simpl in *. subst c. reflexivity.
Qed.

Lemma run_app evs1 evs2 i :
  run (evs1 ++ evs2) i = run evs2 (snd (run evs1 i)).
Proof.
  revert i. induction evs1 as [|ev evs1 IH]; intros i.
  - reflexivity.
  - rewrite <- app_comm_cons, !run_cons. apply IH.
Qed.

Lemma run_normal evs i : fst (run evs i) = Normal ().
Proof.
  revert i. induction evs as [|ev evs IH]; intros i.
  - reflexivity.
  - rewrite run_cons. apply IH.
Qed.

Lemma run_refs evs i :
  startingTitleRef (hooks (snd (run evs i))) = startingTitleRef (hooks i)
  ∧ startingAvatarPathRef (hooks (snd (run evs i)))
    = startingAvatarPathRef (hooks i).
Proof.
  revert i. induction evs as [|ev evs IH]; intros i.
  - split; reflexivity.
  - rewrite run_cons.
    destruct (IH (snd (step ev i))) as [-> ->]. apply step_refs.
Qed.

(** ** Submit eligibility *)

Lemma length_pos_nonempty (t : string) : 0 < String.length t ↔ t ≠ "".
Proof.
  destruct t as [|a t]; simpl; split; intros H; try lia; congruence.
Qed.

Lemma canSubmit_iff (s : State) (p : PropsType) :
  canSubmit s p = true ↔
    requestState p ≠ Active
    ∧ workingTitle s ≠ ""
    ∧ (workingTitle s ≠ title p
       ∨ hasAvatarChanged s = true
       ∨ startingTitleRef s ≠ title p
       ∨ startingAvatarPathRef s ≠ avatarPath p).
Proof.
  unfold canSubmit, isRequestActive, hasChangedExternally, hasTitleChanged.
  rewrite !andb_true_iff, !orb_true_iff, negb_true_iff.
  rewrite bool_decide_eq_false, !bool_decide_eq_true, length_pos_nonempty.
  tauto.
Qed.

(** C1.  After any sequence of events since mounting with props [p0], and
    for any current props [p], the submit button is enabled exactly when
    the request is not Active, the working title is not empty, and the
    title field differs from the external title, or the avatar dirty flag
    is set, or the external title or avatar path differ from the ones of
    the first render.  So (a) an empty title disables it, (b) a title equal
    to the external one, a clean avatar flag and unchanged external props
    disable it, (c) any one of the three changes enables it when the title
    is not empty and the request is not Active. *)
Theorem submit_enabled_iff (p0 : PropsType) (evs : list Event) (p : PropsType) :
  let s := hooks (snd (run evs (start p0))) in
  let changedExternally := title p0 ≠ title p ∨ avatarPath p0 ≠ avatarPath p in
  (submitDisabled s p = false ↔
     requestState p ≠ Active
     ∧ workingTitle s ≠ ""
     ∧ (workingTitle s ≠ title p
        ∨ hasAvatarChanged s = true
        ∨ changedExternally))
  ∧ (workingTitle s = "" → submitDisabled s p = true)
  ∧ (workingTitle s = title p → hasAvatarChanged s = false →
     ¬ changedExternally → submitDisabled s p = true)
  ∧ (workingTitle s ≠ title p ∨ hasAvatarChanged s = true ∨ changedExternally →
     workingTitle s ≠ "" → requestState p ≠ Active →
     submitDisabled s p = false).
Proof.
  intros s changedExternally.
  assert (Hiff : submitDisabled s p = false ↔
     requestState p ≠ Active
     ∧ workingTitle s ≠ ""
     ∧ (workingTitle s ≠ title p
        ∨ hasAvatarChanged s = true
        ∨ changedExternally)).
  { unfold submitDisabled. rewrite negb_false_iff, canSubmit_iff.
    subst s changedExternally.
    destruct (run_refs evs (start p0)) as [-> ->]. simpl. tauto. }
  split; [exact Hiff|].
  assert (Hdis : ∀ b, b ≠ false → b = true) by (intros []; congruence).
  repeat split.
  - intros Hempty. apply Hdis. rewrite Hiff. tauto.
  - intros Ht Ha Hext. apply Hdis. rewrite Hiff.
    intros (_ & _ & [H|[H|H]]); [tauto|congruence|tauto].
  - intros Hch Hne Hreq. apply Hiff. tauto.
Qed.

(** ** Submitting *)

(** C2.  Submitting always calls [preventDefault] and then [makeRequest],
    once each, with a record that has the [avatar] field exactly when the
    avatar dirty flag is set, holding the working avatar, and the [title]
    field exactly when the working title differs from the external title,
    holding the working title, and no other field: only [title] when only
    the title changed, only [avatar] when only the avatar changed, both
    when both changed. *)
Theorem onSubmit_sends_changed_fields (s : State) (p : PropsType) :
  ∃ req : gmap string JsValue,
    onSubmit s p = [PreventDefault; MakeRequest req]
    ∧ (is_Some (req !! "avatar") ↔ hasAvatarChanged s = true)
    ∧ (is_Some (req !! "title") ↔ workingTitle s ≠ title p)
    ∧ (∀ v, req !! "avatar" = Some v → v = avatarValue (avatar s))
    ∧ (∀ v, req !! "title" = Some v → v = JsString (workingTitle s))
    ∧ (∀ k, k ≠ "avatar" → k ≠ "title" → req !! k = None)
    ∧ (hasAvatarChanged s = false → workingTitle s ≠ title p →
       req = {[ "title" := JsString (workingTitle s) ]})
    ∧ (hasAvatarChanged s = true → workingTitle s = title p →
       req = {[ "avatar" := avatarValue (avatar s) ]})
    ∧ (hasAvatarChanged s = true → workingTitle s ≠ title p →
       req = <[ "title" := JsString (workingTitle s) ]>
               {[ "avatar" := avatarValue (avatar s) ]}).
Proof.
  exists (request s p). split; [reflexivity|].
  unfold request, hasTitleChanged.
  destruct (hasAvatarChanged s) eqn:Ha;
    destruct (bool_decide_reflect (workingTitle s ≠ title p)) as [Ht|Ht];
    try apply dec_stable in Ht;
    repeat split; intros; simplify_map_eq; try done;
    try (eexists; done); try (by destruct H as [? ?]; simplify_map_eq).
Qed.

(** ** The avatar effect *)

Definition cancelled (e : EffectState) : Prop :=
  match e with
  | NoTask => True
  | Task _ shouldCancel _ => shouldCancel = true
  end.

Definition isSettle (ev : Event) : Prop :=
  match ev with
  | Settle _ => True
  | _ => False
  end.

Lemma imagePathToArrayBuffer_no_context dom src :
  getContext dom = false →
  imagePathToArrayBuffer dom src
  = Throw {| message :=
      "imagePathToArrayBuffer: could not get canvas rendering context" |}.
Proof. intros H. unfold imagePathToArrayBuffer. rewrite H. reflexivity. Qed.

Lemma imagePathToArrayBuffer_decode_error dom src err :
  getContext dom = true → decode dom src = Throw err →
  imagePathToArrayBuffer dom src = Throw err.
Proof.
  intros Hc Hd. unfold imagePathToArrayBuffer. rewrite Hc, Hd. reflexivity.
Qed.

Lemma imagePathToArrayBuffer_ok dom src w h buffer :
  getContext dom = true → decode dom src = Normal (w, h) →
  canvasToArrayBuffer dom {| width := w; height := h; drawn := Some src |}
  = Normal buffer →
  imagePathToArrayBuffer dom src = Normal buffer.
Proof.
  intros Hc Hd Hb. unfold imagePathToArrayBuffer. rewrite Hc, Hd. simpl.
  rewrite Hb. reflexivity.
Qed.

(** While the component is mounted, a successful resolution replaces the
    working avatar. *)
Lemma settle_applies dom src buffer i :
  effect i = Task src false false →
  imagePathToArrayBuffer dom src = Normal buffer →
  step (Settle dom) i
  = (Normal (), {| hooks := setAvatar (Some buffer) (hooks i);
                   effect := Task src false true;
                   warnings := warnings i |}).
Proof.
  intros Heff Hok. simpl. rewrite Heff. unfold_monad. rewrite Hok.
  repeat (cbn; rewrite ?Heff). reflexivity.
Qed.

Lemma settle_cancelled dom i :
  cancelled (effect i) →
  fst (step (Settle dom) i) = Normal ()
  ∧ hooks (snd (step (Settle dom) i)) = hooks i
  ∧ cancelled (effect (snd (step (Settle dom) i))).
Proof.
  intros Hc. simpl.
  destruct (effect i) as [|src c [|]] eqn:Heff; simpl in *;
    try (rewrite Heff; done).
  subst c. unfold_monad.
  destruct (imagePathToArrayBuffer dom src) as [buffer|err];
    repeat (cbn; rewrite ?Heff); done.
Qed.

Lemma step_cancelled ev i :
  cancelled (effect i) → cancelled (effect (snd (step ev i))).
Proof.
  intros Hc. destruct ev as [t|a|dom|]; simpl; try done.
  - by apply settle_cancelled.
  - by destruct (effect i).
Qed.

Lemma run_cancelled evs i :
  cancelled (effect i) → cancelled (effect (snd (run evs i))).
Proof.
  revert i. induction evs as [|ev evs IH]; intros i Hc; [done|].
  rewrite run_cons. by apply IH, step_cancelled.
Qed.

Lemma unmount_cancelled i : cancelled (effect (snd (step Unmount i))).
Proof. simpl. by destruct (effect i). Qed.

Lemma run_settles_cancelled evs i :
  cancelled (effect i) → Forall isSettle evs →
  hooks (snd (run evs i)) = hooks i.
Proof.
  revert i. induction evs as [|ev evs IH]; intros i Hc Hall; [done|].
  inversion Hall as [|? ? Hev Hall']; subst.
  destruct ev as [t|a|dom|]; try done.
  rewrite run_cons.
  destruct (settle_cancelled dom i Hc) as (_ & Hh & Hc').
  rewrite IH; done.
Qed.

(** C8.  In every run in which the component is unmounted, whatever
    happened before and after, the completion of the avatar resolution
    that follows throws nothing and leaves the hook state as it was; and
    when only completions follow the unmount, the hook state is the one
    the component had when it was unmounted, so the resolved bytes are
    never applied. *)
Theorem unmount_discards_resolution
    (p0 : PropsType) (pre post : list Event) (dom : Dom) :
  let before := snd (run (pre ++ Unmount :: post) (start p0)) in
  fst (step (Settle dom) before) = Normal ()
  ∧ hooks (snd (step (Settle dom) before)) = hooks before
  ∧ (Forall isSettle post → hooks before = hooks (snd (run pre (start p0)))).
Proof.
  intros before.
  assert (Hc : cancelled (effect (snd (step Unmount (snd (run pre (start p0))))))).
  { apply unmount_cancelled. }
  assert (Hb : before = snd (run post (snd (step Unmount (snd (run pre (start p0))))))).
  { subst before. by rewrite run_app, run_cons. }
  destruct (settle_cancelled dom before) as (Hn & Hh & _).
  { rewrite Hb. by apply run_cancelled. }
  repeat split; [done|done|].
  intros Hall. rewrite Hb, run_settles_cancelled; done.
Qed.

(** C9.  When the resolution of the avatar path fails, for whatever
    reason, the completion of the task throws nothing, logs one warning
    carrying the error message, and leaves the hook state, the working
    avatar included, exactly as it was. *)
Theorem failed_resolution_is_logged_and_ignored
    (dom : Dom) (src : string) (shouldCancel : bool) (err : JsError)
    (i : Instance) :
  effect i = Task src shouldCancel false →
  imagePathToArrayBuffer dom src = Throw err →
  step (Settle dom) i
  = (Normal (),
     {| hooks := hooks i;
        effect := Task src shouldCancel true;
        warnings := warnings i ++
          ["Failed to convert image URL to array buffer. Error message: "
           ++ message err] |})
  ∧ avatar (hooks (snd (step (Settle dom) i))) = avatar (hooks i).
Proof.
  intros Heff Hfail. simpl. rewrite Heff. unfold_monad. rewrite Hfail.
  repeat (cbn; rewrite ?Heff). done.
Qed.

(** The resolution at work on the sample group: applied while mounted,
    discarded after unmounting. *)
Example resolution_applied_while_mounted :
  avatar (hooks (snd (run [Settle Samples.workingDom]
                          (start Samples.groupProps))))
  = Some Samples.pngBytes.
Proof. reflexivity. Qed.

Example resolution_discarded_after_unmount :
  avatar (hooks (snd (run [Unmount; Settle Samples.workingDom]
                          (start Samples.groupProps))))
  = Some TEMPORARY_AVATAR_VALUE.
Proof. reflexivity. Qed.

Example title_edit_enables_submit :
  canSubmit (hooks (snd (run [ChangeTitle "Film club"]
                             (start Samples.groupProps))))
            Samples.groupProps = true
  ∧ canSubmit (mount Samples.groupProps) Samples.groupProps = false.
Proof. split; reflexivity. Qed.

Lemma failed_resolution_witness :
  effect (start Samples.groupProps) = Task "avatars/group.png" false false
  ∧ imagePathToArrayBuffer Samples.brokenImageDom "avatars/group.png"
    = Throw {| message := "The source image cannot be decoded." |}
  ∧ step (Settle Samples.brokenImageDom) (start Samples.groupProps)
    = (Normal (),
       {| hooks := mount Samples.groupProps;
          effect := Task "avatars/group.png" false true;
          warnings :=
            ["Failed to convert image URL to array buffer. Error message: "
             ++ "The source image cannot be decoded."] |})
  ∧ avatar (hooks (snd (step (Settle Samples.brokenImageDom)
                             (start Samples.groupProps))))
    = Some TEMPORARY_AVATAR_VALUE.
Proof.
  split; [reflexivity|]. split; [reflexivity|].
  apply (failed_resolution_is_logged_and_ignored
           Samples.brokenImageDom "avatars/group.png" false
           {| message := "The source image cannot be decoded." |}
           (start Samples.groupProps)); reflexivity.
Defined.

End EditConversationAttributesModal_spec.

(** * Properties of StoryViewsNRepliesModal *)

Module StoryViewsNRepliesModal_spec.
Import StoryViewsNRepliesModal.

Lemma truthy_length_true {A} (l : list A) : truthy_length l = true ↔ l ≠ [].
Proof.
  unfold truthy_length. rewrite bool_decide_eq_true.
  destruct l; simpl; split; intros H; congruence.
Qed.

Lemma truthy_length_false {A} (l : list A) : truthy_length l = false ↔ l = [].
Proof.
  unfold truthy_length. rewrite bool_decide_eq_false.
  destruct l; simpl; split; intros H; try congruence. by destruct H.
Qed.

Lemma flat_map_flat_map {A B C} (g : B → list C) (f : A → list B) (l : list A) :
  flat_map g (flat_map f l) = flat_map (λ a, flat_map g (f a)) l.
Proof.
  induction l as [|a l IH]; simpl; [done|].
  by rewrite flat_map_app, IH.
Qed.

Lemma flat_map_map {A B C} (g : B → list C) (f : A → B) (l : list A) :
  flat_map g (map f l) = flat_map (λ a, g (f a)) l.
Proof. induction l as [|a l IH]; simpl; [done|]. by rewrite IH. Qed.

Lemma flat_map_nil {A B} (f : A → list B) (l : list A) :
  (∀ a, f a = []) → flat_map f l = [].
Proof. intros H. induction l as [|a l IH]; simpl; [done|]. by rewrite H, IH. Qed.

Lemma flat_map_singleton {A B} (f : A → list B) (h : A → B) (l : list A) :
  (∀ a, f a = [h a]) → flat_map f l = map h l.
Proof. intros H. induction l as [|a l IH]; simpl; [done|]. by rewrite H, IH. Qed.

Section WithImports.

Context {AttachmentType EmojiPickDataType BodyRangeType InputApi : Type}.
Context (getAvatarColor : option string → string).
Context (getStoryReplyText :
           (string → string) → option AttachmentType → string).

#[warnings="-notation-for-abbreviation"] Local Notation Element :=
  (@Element AttachmentType).
#[warnings="-notation-for-abbreviation"] Local Notation PropsType :=
  (@PropsType AttachmentType).
#[warnings="-notation-for-abbreviation"] Local Notation State :=
  (@State InputApi).
#[warnings="-notation-for-abbreviation"] Local Notation render :=
  (StoryViewsNRepliesModal getAvatarColor getStoryReplyText).

(** ** What is on screen *)

Ltac reply_cases reply :=
  unfold replyElement, rowFor;
  destruct (reactionEmoji reply) as [emoji|]; simpl truthy_string;
  try destruct (bool_decide (emoji ≠ ""));
  destruct (truthy_bool (deletedForEveryone reply));
  reflexivity.

Ltac view_cases view :=
  unfold viewElement, viewTimestamp;
  destruct (updatedAt view) as [t|];
  try destruct (Z.eqb t 0);
  reflexivity.

Lemma reply_landmarks selection (p : PropsType) (reply : ReplyType) :
  landmarks (nodesWith selection (replyElement getAvatarColor p reply))
  = [ReplyRow (rowFor p reply)].
Proof. reply_cases reply. Qed.

Lemma view_landmarks selection (view : StorySendStateType) :
  landmarks (nodesWith (AttachmentType := AttachmentType) selection
               (viewElement getAvatarColor view)) = [].
Proof. view_cases view. Qed.

(** The landmarks each part of the modal contributes. *)
Definition composerLandmarks (p : PropsType) : list Landmark :=
  if negb (truthy_bool (isMyStory p)) && canReply p then
    (if truthy_bool (isGroupStory p) then [] else [QuotePreview])
    ++ [Composer; ReactionTrigger]
  else [].

Definition repliesLandmarks (p : PropsType) : list Landmark :=
  if truthy_length (replies p) then
    RepliesList :: map (λ reply, ReplyRow (rowFor p reply)) (replies p)
  else if truthy_bool (isGroupStory p) then [NoRepliesPlaceholder]
  else [].

Definition viewsLandmarks (p : PropsType) : list Landmark :=
  if truthy_length (views p) then [ViewsList] else [].

Definition expectedLandmarks (selection : Tab → Tab) (p : PropsType)
    : list Landmark :=
  if truthy_length (views p) && truthy_length (replies p) then
    TabControl Views ::
      match selection Views with
      | Views => viewsLandmarks p
      | Replies => repliesLandmarks p ++ composerLandmarks p
      end
  else
    (if truthy_length (views p) then viewsLandmarks p else repliesLandmarks p)
    ++ composerLandmarks p.

Lemma screen_landmarks selection (p : PropsType) (st : State) :
  landmarks (screen (nodesWith selection) (render p st))
  = expectedLandmarks selection p.
Proof.
  unfold expectedLandmarks, viewsLandmarks, repliesLandmarks, composerLandmarks.
  unfold StoryViewsNRepliesModal, tabsElement, viewsElement, repliesElement,
    composerElement, landmarks.
  destruct (truthy_length (views p)), (truthy_length (replies p)),
    (truthy_bool (isGroupStory p)), (truthy_bool (isMyStory p)),
    (canReply p), (showReactionPicker st);
    cbn -[replyElement viewElement];
    try destruct (selection Views);
    cbn -[replyElement viewElement];
    rewrite ?flat_map_app, ?flat_map_flat_map, ?flat_map_map;
    rewrite ?(flat_map_nil _ _ (view_landmarks selection));
    rewrite ?(flat_map_singleton _ _ _ (reply_landmarks selection p));
    cbn; rewrite ?app_nil_r; reflexivity.
Qed.

Lemma filter_rows (kind : Landmark) {A} (f : A → Row) (l : list A) :
  isRow kind = false →
  List.filter (sameLandmark kind) (map (λ a, ReplyRow (f a)) l) = [].
Proof.
  intros Hk. induction l as [|a l IH]; simpl; [done|].
  rewrite IH. by destruct kind.
Qed.

Lemma rows_of_rows {A} (f : A → Row) (l : list A) :
  flat_map rowsOf (map (λ a, ReplyRow (f a)) l) = map f l.
Proof. induction l as [|a l IH]; simpl; [done|]. by rewrite IH. Qed.

Ltac on_screen :=
  unfold occurrences, rows; rewrite screen_landmarks;
  unfold expectedLandmarks, viewsLandmarks, repliesLandmarks,
    composerLandmarks.

Ltac count_cases p selection :=
  on_screen;
  destruct (truthy_length (views p)), (truthy_length (replies p)),
    (truthy_bool (isGroupStory p)), (truthy_bool (isMyStory p)),
    (canReply p), (selection Views);
  simpl;
  rewrite ?List.filter_app, ?flat_map_app, ?rows_of_rows,
    ?filter_rows by reflexivity;
  reflexivity.

Lemma count_TabControl selection (p : PropsType) (st : State) :
  occurrences (TabControl Views) (screen (nodesWith selection) (render p st))
  = if truthy_length (views p) && truthy_length (replies p) then 1 else 0.
Proof. count_cases p selection. Qed.

Lemma count_ViewsList selection (p : PropsType) (st : State) :
  occurrences ViewsList (screen (nodesWith selection) (render p st))
  = if truthy_length (views p)
       && (negb (truthy_length (replies p)) || Tab_beq (selection Views) Views)
    then 1 else 0.
Proof. count_cases p selection. Qed.

Lemma count_RepliesList selection (p : PropsType) (st : State) :
  occurrences RepliesList (screen (nodesWith selection) (render p st))
  = if truthy_length (replies p)
       && (negb (truthy_length (views p)) || Tab_beq (selection Views) Replies)
    then 1 else 0.
Proof. count_cases p selection. Qed.

Lemma count_NoRepliesPlaceholder selection (p : PropsType) (st : State) :
  occurrences NoRepliesPlaceholder (screen (nodesWith selection) (render p st))
  = if negb (truthy_length (replies p)) && truthy_bool (isGroupStory p)
       && negb (truthy_length (views p))
    then 1 else 0.
Proof. count_cases p selection. Qed.

(** Whether the composer is in what is shown: always without a tab
    control, and on the Replies tab with one. *)
Definition composerShown (selection : Tab → Tab) (p : PropsType) : bool :=
  negb (truthy_length (views p) && truthy_length (replies p))
  || Tab_beq (selection Views) Replies.

Lemma count_Composer selection (p : PropsType) (st : State) :
  occurrences Composer (screen (nodesWith selection) (render p st))
  = if negb (truthy_bool (isMyStory p)) && canReply p
       && composerShown selection p
    then 1 else 0.
Proof. unfold composerShown. count_cases p selection. Qed.

Lemma count_ReactionTrigger selection (p : PropsType) (st : State) :
  occurrences ReactionTrigger (screen (nodesWith selection) (render p st))
  = if negb (truthy_bool (isMyStory p)) && canReply p
       && composerShown selection p
    then 1 else 0.
Proof. unfold composerShown. count_cases p selection. Qed.

Lemma count_QuotePreview selection (p : PropsType) (st : State) :
  occurrences QuotePreview (screen (nodesWith selection) (render p st))
  = if negb (truthy_bool (isMyStory p)) && canReply p
       && composerShown selection p && negb (truthy_bool (isGroupStory p))
    then 1 else 0.
Proof. unfold composerShown. count_cases p selection. Qed.

Lemma rows_on_screen selection (p : PropsType) (st : State) :
  rows (screen (nodesWith selection) (render p st))
  = if truthy_length (views p) && truthy_length (replies p)
       && Tab_beq (selection Views) Views
    then [] else map (rowFor p) (replies p).
Proof.
  on_screen.
  destruct (truthy_length (replies p)) eqn:Hr;
    [|apply truthy_length_false in Hr; rewrite Hr];
    destruct (truthy_length (views p)), (truthy_bool (isGroupStory p)),
      (truthy_bool (isMyStory p)), (canReply p), (selection Views);
    simpl; rewrite ?flat_map_app, ?rows_of_rows, ?app_nil_r; reflexivity.
Qed.

(** ** The tab control *)

Lemma tabsElement_defined (p : PropsType) (st : State) :
  is_Some (tabsElement getAvatarColor getStoryReplyText p st)
  ↔ replies p ≠ [] ∧ views p ≠ [].
Proof.
  unfold tabsElement. rewrite <- !truthy_length_true.
  destruct (truthy_length (views p)), (truthy_length (replies p)); simpl;
    split; try (intros [? ?]; done); try (intros [? ?]; eauto); eauto.
Qed.

(** C3.  Whatever tab is selected, the screen holds a tab control, and
    then exactly one, if and only if both the replies and the views are
    non-empty; with views only, the views list is on screen once and no
    tab control; with replies only, the replies list is on screen once,
    with its rows, and no tab control. *)
Theorem tabs_iff_both_nonempty
    (p : PropsType) (st : State) (selectedTab : Tab) :
  let shown := screen (nodes selectedTab) (render p st) in
  (is_Some (tabsElement getAvatarColor getStoryReplyText p st)
   ↔ replies p ≠ [] ∧ views p ≠ [])
  ∧ (occurrences (TabControl Views) shown = 1 ↔ replies p ≠ [] ∧ views p ≠ [])
  ∧ (occurrences (TabControl Views) shown = 0
     ↔ ¬ (replies p ≠ [] ∧ views p ≠ []))
  ∧ (views p ≠ [] → replies p = [] →
     occurrences ViewsList shown = 1
     ∧ occurrences (TabControl Views) shown = 0)
  ∧ (replies p ≠ [] → views p = [] →
     occurrences RepliesList shown = 1
     ∧ rows shown = map (rowFor p) (replies p)
     ∧ occurrences (TabControl Views) shown = 0).
Proof.
  intros shown. subst shown. unfold nodes.
  rewrite count_TabControl, count_ViewsList, count_RepliesList, rows_on_screen.
  split; [apply tabsElement_defined|].
  rewrite <- !truthy_length_true, <- !truthy_length_false.
  destruct (truthy_length (views p)), (truthy_length (replies p));
    simpl; intuition congruence.
Qed.

(** ** The placeholder for a group story without replies *)

(** C4, as the code has it.  For a group story without replies the
    placeholder is on screen exactly once when there are no views either,
    whatever the composer flags; when there are views, the views list
    takes its place and the placeholder is not on screen. *)
Theorem no_replies_placeholder
    (p : PropsType) (st : State) (selectedTab : Tab) :
  isGroupStory p = Some true → replies p = [] →
  let shown := screen (nodes selectedTab) (render p st) in
  (views p = [] → occurrences NoRepliesPlaceholder shown = 1)
  ∧ (views p ≠ [] →
     occurrences NoRepliesPlaceholder shown = 0
     ∧ occurrences ViewsList shown = 1).
Proof.
  intros Hg Hr shown. subst shown. unfold nodes.
  rewrite count_NoRepliesPlaceholder, count_ViewsList.
  rewrite Hg, Hr. simpl. rewrite <- truthy_length_true, <- truthy_length_false.
  destruct (truthy_length (views p)); simpl; split; try done.
Qed.

(** ** The composer *)

Lemma composerElement_defined (p : PropsType) (st : State) :
  is_Some (composerElement getStoryReplyText p st)
  ↔ isMyStory p ≠ Some true ∧ canReply p = true.
Proof.
  unfold composerElement.
  destruct (isMyStory p) as [[|]|], (canReply p); simpl;
    split; try (intros [? ?]; done); eauto.
Qed.

Lemma not_mine (p : PropsType) :
  isMyStory p ≠ Some true ↔ truthy_bool (isMyStory p) = false.
Proof. destruct (isMyStory p) as [[|]|]; simpl; split; done. Qed.

(** C5, as the code has it.  The composer element exists if and only if
    [isMyStory] is not true and [canReply] is true.  The composition input
    and the reaction trigger are on screen, once each, if and only if that
    holds and the composer is in view: there is no tab control (the views
    or the replies are empty) or the Replies tab is selected.  The quote
    preview is on screen under the same condition for a story that is not
    a group story, and never for a group story.  On the first screen the
    composer is there if and only if it is allowed and there is no tab
    control.  Whenever [isMyStory] is true or [canReply] is false, none of
    the three is on screen, whatever the other inputs and the tab. *)
Theorem composer_iff_allowed_and_in_view
    (p : PropsType) (st : State) (selectedTab : Tab) :
  let shown := screen (nodes selectedTab) (render p st) in
  let first := screen firstScreen (render p st) in
  let allowed := isMyStory p ≠ Some true ∧ canReply p = true in
  let inView := views p = [] ∨ replies p = [] ∨ selectedTab = Replies in
  (is_Some (composerElement getStoryReplyText p st) ↔ allowed)
  ∧ (occurrences Composer shown = 1 ↔ allowed ∧ inView)
  ∧ (occurrences Composer shown = 0 ↔ ¬ (allowed ∧ inView))
  ∧ occurrences ReactionTrigger shown = occurrences Composer shown
  ∧ (occurrences QuotePreview shown = 1
     ↔ allowed ∧ inView ∧ truthy_bool (isGroupStory p) = false)
  ∧ (occurrences QuotePreview shown = 0
     ↔ ¬ (allowed ∧ inView ∧ truthy_bool (isGroupStory p) = false))
  ∧ (occurrences Composer first = 1
     ↔ allowed ∧ (views p = [] ∨ replies p = []))
  ∧ (occurrences Composer first = 0
     ↔ ¬ (allowed ∧ (views p = [] ∨ replies p = [])))
  ∧ (¬ allowed →
     occurrences Composer shown = 0
     ∧ occurrences ReactionTrigger shown = 0
     ∧ occurrences QuotePreview shown = 0
     ∧ occurrences Composer first = 0).
Proof.
  intros shown first allowed inView. subst shown first allowed inView.
  unfold nodes, firstScreen.
  split; [apply composerElement_defined|].
  rewrite !count_Composer, !count_ReactionTrigger, !count_QuotePreview.
  unfold composerShown. rewrite !not_mine, <- !truthy_length_false.
  destruct (truthy_bool (isMyStory p)), (canReply p),
    (truthy_length (views p)), (truthy_length (replies p)),
    (truthy_bool (isGroupStory p)), selectedTab; simpl;
    intuition congruence.
Qed.

(** ** The reply rows *)

(** C6.  On the Replies screen the reply rows are, in the order of the
    reply collection, one row per reply: a reaction row showing the emoji
    when the reply's reaction emoji is a non-empty string, and otherwise a
    message row showing the body text, or the deleted placeholder together
    with the marker class when the reply was deleted for everyone.  Without
    views the same rows are on screen whatever the tab. *)
Theorem replies_render_in_order (p : PropsType) (st : State) :
  rows (screen (nodes Replies) (render p st)) = map (rowFor p) (replies p)
  ∧ (∀ selectedTab, views p = [] →
       rows (screen (nodes selectedTab) (render p st))
       = map (rowFor p) (replies p))
  ∧ (∀ reply emoji,
       reactionEmoji reply = Some emoji → emoji ≠ "" →
       rowFor p reply = ReactionRow (Some (id reply)) [emoji])
  ∧ (∀ reply,
       reactionEmoji reply = None ∨ reactionEmoji reply = Some "" →
       rowFor p reply
       = MessageRow (Some (id reply))
           (truthy_bool (deletedForEveryone reply))
           [if truthy_bool (deletedForEveryone reply)
            then i18n p "message--deletedForEveryone"
            else String_of (body reply)]).
Proof.
  unfold nodes. split; [|split; [|split]].
  - rewrite rows_on_screen. simpl. by rewrite andb_false_r.
  - intros selectedTab Hv. rewrite rows_on_screen.
    apply truthy_length_false in Hv. by rewrite Hv.
  - intros reply emoji He Hne. unfold rowFor. rewrite He.
    by rewrite bool_decide_true.
  - intros reply [He|He]; unfold rowFor; rewrite He; reflexivity.
Qed.

(** ** Inserting an emoji *)

(** C7.  Every pick handler in the composer is [insertEmoji].  One call of
    it inserts the emoji through the input API exactly when it reports the
    emoji to [onUseEmoji]: with an input API both happen once, in that
    order and for the picked emoji; without one neither happens.  The hook
    state is untouched. *)
Theorem insertEmoji_inserts_and_reports
    (e : EmojiPickDataType) (p : PropsType) (st : State) (selectedTab : Tab) :
  let effects : list (@Effect EmojiPickDataType BodyRangeType InputApi) :=
    fst (insertEmoji e st) in
  flat_map insertedOf effects = flat_map reportedOf effects
  ∧ (∀ api, inputApiRef st = Some api →
       effects = [InputApi_insertEmoji api e; OnUseEmoji e]
       ∧ flat_map insertedOf effects = [e]
       ∧ flat_map reportedOf effects = [e])
  ∧ (inputApiRef st = None → effects = [])
  ∧ snd (insertEmoji (BodyRangeType := BodyRangeType) e st) = st
  ∧ Forall (λ h, h = h_insertEmoji)
      (flat_map onPickEmojiOf
         (nodes selectedTab (child (composerElement getStoryReplyText p st)))).
Proof.
  intros effects. subst effects. unfold insertEmoji.
  destruct (inputApiRef st) as [api|] eqn:Hapi; simpl.
  all: repeat split; try done; try congruence.
  all: unfold composerElement;
    destruct (truthy_bool (isMyStory p)), (canReply p),
      (truthy_bool (isGroupStory p)), (showReactionPicker st); simpl;
    repeat constructor.
Qed.

(** ** The first screen *)

(** C10.  With both views and replies the modal returns a tab control
    whose initial tab is Views, and the first screen holds that tab control
    and the views list and nothing else: no replies list, no reply row, no
    composer. *)
Theorem tabs_start_on_views (p : PropsType) (st : State) :
  views p ≠ [] → replies p ≠ [] →
  let first := screen firstScreen (render p st) in
  (∃ tabs children,
     tabsElement getAvatarColor getStoryReplyText p st
     = Some (Tabs Views tabs children))
  ∧ landmarks first = [TabControl Views; ViewsList]
  ∧ occurrences ViewsList first = 1
  ∧ occurrences RepliesList first = 0
  ∧ occurrences Composer first = 0
  ∧ rows first = [].
Proof.
  intros Hv Hr first. subst first. unfold firstScreen.
  rewrite count_ViewsList, count_RepliesList, count_Composer, rows_on_screen,
    screen_landmarks.
  unfold expectedLandmarks, viewsLandmarks, composerShown, tabsElement.
  apply truthy_length_true in Hv, Hr. rewrite Hv, Hr. simpl.
  rewrite !andb_false_r. eauto 10.
Qed.

End WithImports.

(** C4 as stated fails: a group story without replies but with a view
    shows the views list and no placeholder. *)
Lemma placeholder_hidden_by_views :
  isGroupStory StorySamples.seenGroupStory = Some true
  ∧ replies StorySamples.seenGroupStory = []
  ∧ occurrences NoRepliesPlaceholder
      (screen (nodes Views)
         (StoryViewsNRepliesModal StorySamples.avatarColor
            StorySamples.storyReplyText StorySamples.seenGroupStory
            StorySamples.freshState)) = 0
  ∧ occurrences NoRepliesPlaceholder
      (screen firstScreen
         (StoryViewsNRepliesModal StorySamples.avatarColor
            StorySamples.storyReplyText StorySamples.seenGroupStory
            StorySamples.freshState)) = 0.
Proof. repeat split; vm_compute; reflexivity. Qed.

(** C5 as stated fails: with one view and one reply, a story that is not
    mine and may be replied to shows the Views tab first, and neither on
    the first screen nor on the Views tab is there a composition input, a
    reaction trigger or a quote preview. *)
Lemma composer_hidden_behind_views_tab :
  isMyStory StorySamples.friendsBusyStory ≠ Some true
  ∧ canReply StorySamples.friendsBusyStory = true
  ∧ occurrences Composer
      (screen firstScreen
         (StoryViewsNRepliesModal StorySamples.avatarColor
            StorySamples.storyReplyText StorySamples.friendsBusyStory
            StorySamples.freshState)) = 0
  ∧ occurrences ReactionTrigger
      (screen firstScreen
         (StoryViewsNRepliesModal StorySamples.avatarColor
            StorySamples.storyReplyText StorySamples.friendsBusyStory
            StorySamples.freshState)) = 0
  ∧ occurrences QuotePreview
      (screen firstScreen
         (StoryViewsNRepliesModal StorySamples.avatarColor
            StorySamples.storyReplyText StorySamples.friendsBusyStory
            StorySamples.freshState)) = 0
  ∧ occurrences Composer
      (screen (nodes Views)
         (StoryViewsNRepliesModal StorySamples.avatarColor
            StorySamples.storyReplyText StorySamples.friendsBusyStory
            StorySamples.freshState)) = 0.
Proof. split; [discriminate|]. repeat split; vm_compute; reflexivity. Qed.

(** The same story on the Replies tab, and a group story without a tab
    control: the composer is there, the quote preview only for the story
    that is not a group story. *)
Example composer_on_replies_tab :
  landmarks
    (screen (nodes Replies)
       (StoryViewsNRepliesModal StorySamples.avatarColor
          StorySamples.storyReplyText StorySamples.friendsBusyStory
          StorySamples.freshState))
  = [TabControl Views; RepliesList;
     ReplyRow (MessageRow (Some "conversation-ada") false ["Lovely"]);
     QuotePreview; Composer; ReactionTrigger].
Proof. vm_compute. reflexivity. Qed.

Example group_composer_without_quote :
  landmarks
    (screen firstScreen
       (StoryViewsNRepliesModal StorySamples.avatarColor
          StorySamples.storyReplyText StorySamples.friendsGroupStory
          StorySamples.freshState))
  = [NoRepliesPlaceholder; Composer; ReactionTrigger].
Proof. vm_compute. reflexivity. Qed.

Lemma no_replies_placeholder_witness :
  occurrences NoRepliesPlaceholder
    (screen (nodes Views)
       (StoryViewsNRepliesModal StorySamples.avatarColor
          StorySamples.storyReplyText StorySamples.quietGroupStory
          StorySamples.freshState)) = 1.
Proof.
  apply (no_replies_placeholder StorySamples.avatarColor
           StorySamples.storyReplyText StorySamples.quietGroupStory
           StorySamples.freshState Views); reflexivity.
Defined.


Lemma tabs_start_on_views_witness :
  views StorySamples.busyStory ≠ []
  ∧ replies StorySamples.busyStory ≠ []
  ∧ landmarks
      (screen firstScreen
         (StoryViewsNRepliesModal StorySamples.avatarColor
            StorySamples.storyReplyText StorySamples.busyStory
            StorySamples.freshState))
    = [TabControl Views; ViewsList].
Proof.
  split; [discriminate|]. split; [discriminate|].
  apply (tabs_start_on_views StorySamples.avatarColor
           StorySamples.storyReplyText StorySamples.busyStory
           StorySamples.freshState); discriminate.
Defined.

(** The sample story with one view and one reply, tab by tab. *)
Example busy_story_replies_tab :
  landmarks
    (screen (nodes Replies)
       (StoryViewsNRepliesModal StorySamples.avatarColor
          StorySamples.storyReplyText StorySamples.busyStory
          StorySamples.freshState))
  = [TabControl Views; RepliesList;
     ReplyRow (MessageRow (Some "conversation-ada") false ["Lovely"])].
Proof. vm_compute. reflexivity. Qed.

End StoryViewsNRepliesModal_spec.

(** * The form of EditConversationAttributesModal *)

Module EditConversationAttributesModal_form.
Import EditConversationAttributesModal.
Import EditConversationAttributesModal_spec.

Inductive ButtonVariant := Primary | Secondary.

(** The one member of [AvatarInputVariant] the modal uses. *)
Inductive AvatarInputVariant := Dark.

(** The tree the modal returns.  [PlainButton] is the [<button>] element,
    [Button] the component; [buttonType] is its [type] attribute when one
    is given. *)
#[warnings="-register-all"] Inductive Node :=
| Nothing
| Text (s : string)
| ModalHost (children : list Node)
| Form (className : string) (children : list Node)
| PlainButton (ariaLabel className : string) (disabled : bool)
              (buttonType : string)
| H1 (className : string) (children : list Node)
| AvatarInput (contextMenuId : string) (disabled : bool)
              (value : option ArrayBuffer) (variant : AvatarInputVariant)
| GroupTitleInput (disabled : bool) (value : string)
| Div (className : string) (children : list Node)
| Button (buttonType : option string) (variant : ButtonVariant)
         (disabled : bool) (children : list Node)
| Spinner (size svgSize direction : string).

(** The [return (...)] of the component. *)
Definition render (i18n : string → string) (s : State) (p : PropsType)
    : Node :=
  ModalHost [
    Form "module-EditConversationAttributesModal" [
      PlainButton (i18n "close")
        "module-EditConversationAttributesModal__close-button"
        (isRequestActive p) "button";
      H1 "module-EditConversationAttributesModal__header"
         [Text (i18n "updateGroupAttributes__title")];
      AvatarInput "edit conversation attributes avatar input"
        (isRequestActive p) (avatar s) Dark;
      GroupTitleInput (isRequestActive p) (workingTitle s);
      if bool_decide (requestState p = InactiveWithError) then
        Div "module-EditConversationAttributesModal__error-message"
            [Text (i18n "updateGroupAttributes__error-message")]
      else Nothing;
      Div "module-EditConversationAttributesModal__button-container" [
        Button None Secondary (isRequestActive p) [Text (i18n "cancel")];
        Button (Some "submit") Primary (negb (canSubmit s p)) [
          if isRequestActive p
          then Spinner "20px" "small" "on-avatar"
          else Text (i18n "save")
        ]
      ]
    ]
  ].

(** The nodes of a tree, in document order. *)
Fixpoint nodesOf (n : Node) : list Node :=
  n :: match n with
       | ModalHost children
       | Form _ children
       | H1 _ children
       | Div _ children
       | Button _ _ _ children => flat_map nodesOf children
       | _ => []
       end.

(** The controls of the form. *)
Inductive Control :=
| CloseControl
| AvatarControl
| TitleControl
| CancelControl
| SubmitControl.

(** A control and whether it is disabled. *)
Definition controlOf (n : Node) : list (Control * bool) :=
  match n with
  | PlainButton _ _ disabled _ => [(CloseControl, disabled)]
  | AvatarInput _ disabled _ _ => [(AvatarControl, disabled)]
  | GroupTitleInput disabled _ => [(TitleControl, disabled)]
  | Button (Some _) _ disabled _ => [(SubmitControl, disabled)]
  | Button None _ disabled _ => [(CancelControl, disabled)]
  | _ => []
  end.

Definition controls (n : Node) : list (Control * bool) :=
  flat_map controlOf (nodesOf n).



(** The values the two inputs show. *)
Definition titleShown (n : Node) : list string :=
  flat_map (λ n, match n with
                 | GroupTitleInput _ value => [value]
                 | _ => []
                 end) (nodesOf n).

Definition avatarShown (n : Node) : list (option ArrayBuffer) :=
  flat_map (λ n, match n with
                 | AvatarInput _ _ value _ => [value]
                 | _ => []
                 end) (nodesOf n).

(** ** Reading a run *)

Definition isChangeAvatar (ev : Event) : bool :=
  match ev with
  | ChangeAvatar _ => true
  | _ => false
  end.

Definition isUserEvent (ev : Event) : bool :=
  match ev with
  | ChangeTitle _ | ChangeAvatar _ => true
  | _ => false
  end.

(** The title after the title edits of a run, from the title [t]. *)
Definition lastTitle (evs : list Event) (t : string) : string :=
  fold_left (λ t ev, match ev with
                     | ChangeTitle t' => t'
                     | _ => t
                     end) evs t.

Lemma settle_hooks dom i :
  hooks (snd (step (Settle dom) i)) = hooks i
  ∨ ∃ buffer, hooks (snd (step (Settle dom) i))
              = setAvatar (Some buffer) (hooks i).
Proof.
  simpl. destruct (effect i) as [|src c [|]] eqn:Heff; try (by left).
  unfold_monad.
  destruct (imagePathToArrayBuffer dom src) as [buffer|err];
    repeat (cbn; rewrite ?Heff); [|by left].
  destruct c; cbn; [by left|right; by exists buffer].
Qed.

Lemma step_flag ev i :
  hasAvatarChanged (hooks (snd (step ev i)))
  = hasAvatarChanged (hooks i) || isChangeAvatar ev.
Proof.
  destruct ev as [t|a|dom|]; try (simpl; by rewrite ?orb_false_r, ?orb_true_r).
  destruct (settle_hooks dom i) as [->|[b ->]]; simpl; by rewrite orb_false_r.
Qed.

Lemma step_title ev i :
  workingTitle (hooks (snd (step ev i))) = lastTitle [ev] (workingTitle (hooks i)).
Proof.
  destruct ev as [t|a|dom|]; try reflexivity.
  destruct (settle_hooks dom i) as [->|[b ->]]; reflexivity.
Qed.

Lemma step_user_effect ev i :
  isUserEvent ev = true → effect (snd (step ev i)) = effect i.
Proof. destruct ev; simpl; done. Qed.

Lemma run_user_effect evs i :
  forallb isUserEvent evs = true → effect (snd (run evs i)) = effect i.
Proof.
  revert i. induction evs as [|ev evs IH]; intros i H; [done|].
  simpl in H. apply andb_true_iff in H as [Hev Hevs].
  rewrite run_cons, IH by done. by apply step_user_effect.
Qed.

Lemma run_flag evs i :
  hasAvatarChanged (hooks (snd (run evs i)))
  = hasAvatarChanged (hooks i) || existsb isChangeAvatar evs.
Proof.
  revert i. induction evs as [|ev evs IH]; intros i; simpl existsb.
  - simpl. by rewrite orb_false_r.
  - rewrite run_cons, IH, step_flag. by rewrite orb_assoc.
Qed.

Lemma run_title evs i :
  workingTitle (hooks (snd (run evs i)))
  = lastTitle evs (workingTitle (hooks i)).
Proof.
  revert i. induction evs as [|ev evs IH]; intros i; [done|].
  rewrite run_cons, IH, step_title. reflexivity.
Qed.

(** X1.  In any run since mounting the avatar dirty flag is set exactly
    when the run holds an avatar change: the flag is never cleared, not
    even by choosing the former avatar again, and the resolution of the
    starting avatar never sets it. *)
Theorem avatar_flag_iff_avatar_changed (p0 : PropsType) (evs : list Event) :
  hasAvatarChanged (hooks (snd (run evs (start p0))))
  = existsb isChangeAvatar evs.
Proof. by rewrite run_flag. Qed.

(** X2.  In any run since mounting the working title is the one of the
    last title edit, or the title of the first render when there was none:
    neither avatar changes, nor the resolution, nor unmounting touch it.
    So typing the external title back makes the title count as unchanged
    again. *)
Theorem title_is_last_edit (p0 : PropsType) (evs : list Event) (p : PropsType) :
  let s := hooks (snd (run evs (start p0))) in
  workingTitle s = lastTitle evs (title p0)
  ∧ (hasTitleChanged s p = false ↔ lastTitle evs (title p0) = title p).
Proof.
  intros s. subst s. split; [by rewrite run_title|].
  unfold hasTitleChanged. rewrite bool_decide_eq_false, run_title. simpl.
  split; [apply dec_stable|]. intros -> Hne. by apply Hne.
Qed.

(** X3.  When the external props changed since the first render but the
    user changed nothing, the title matching the new external title, the
    submit button is enabled for a non-empty title and an idle request, and
    submitting sends the empty record. *)
Theorem external_change_submits_empty_record (s : State) (p : PropsType) :
  startingTitleRef s ≠ title p ∨ startingAvatarPathRef s ≠ avatarPath p →
  workingTitle s = title p → hasAvatarChanged s = false →
  title p ≠ "" → requestState p ≠ Active →
  canSubmit s p = true ∧ onSubmit s p = [PreventDefault; MakeRequest ∅].
Proof.
  intros Hext Ht Ha Hne Hreq. split.
  - apply canSubmit_iff. rewrite Ht. tauto.
  - unfold onSubmit, request, hasTitleChanged. rewrite Ha, Ht.
    by rewrite bool_decide_false by (intros H; by apply H).
Qed.

(** The sample group after its avatar was replaced elsewhere. *)
Definition groupPropsNewAvatar : PropsType :=
  {| avatarPath := Some "avatars/group-2.png";
     requestState := Inactive;
     title := "Book club" |}.

Lemma external_change_witness :
  canSubmit (mount Samples.groupProps) groupPropsNewAvatar = true
  ∧ onSubmit (mount Samples.groupProps) groupPropsNewAvatar
    = [PreventDefault; MakeRequest ∅].
Proof.
  apply (external_change_submits_empty_record
           (mount Samples.groupProps) groupPropsNewAvatar);
    try done. right. done.
Defined.

(** X4.  While the component is mounted and the resolution of the
    starting avatar is pending, whatever the user edits in the meantime,
    a successful resolution replaces the working avatar by the resolved
    bytes and leaves the dirty flag as the edits set it; so after an
    avatar change followed by the resolution, submitting sends the
    resolved bytes, not the avatar the user chose. *)
Theorem resolution_overwrites_avatar_edits
    (p0 : PropsType) (src : string) (pre : list Event) (dom : Dom)
    (buffer : ArrayBuffer) :
  avatarPath p0 = Some src → src ≠ "" →
  forallb isUserEvent pre = true →
  imagePathToArrayBuffer dom src = Normal buffer →
  let s := hooks (snd (run (pre ++ [Settle dom]) (start p0))) in
  avatar s = Some buffer
  ∧ hasAvatarChanged s = existsb isChangeAvatar pre
  ∧ (existsb isChangeAvatar pre = true →
     ∀ p, request s p !! "avatar" = Some (JsArrayBuffer buffer)).
Proof.
  intros Hpath Hsrc Hpre Hok s.
  assert (Heff : effect (snd (run pre (start p0))) = Task src false false).
  { rewrite run_user_effect by done. simpl. unfold useEffect. simpl.
    rewrite Hpath. by rewrite bool_decide_true. }
  assert (Hs : s = setAvatar (Some buffer) (hooks (snd (run pre (start p0))))).
  { subst s. rewrite run_app, run_cons.
    by rewrite (settle_applies dom src buffer _ Heff Hok). }
  assert (Hflag : hasAvatarChanged s = existsb isChangeAvatar pre).
  { rewrite Hs. simpl. by rewrite run_flag. }
  split; [by rewrite Hs|]. split; [done|].
  intros Hch p. unfold request. rewrite Hflag, Hch, Hs. simpl.
  destruct (hasTitleChanged _ p); by simplify_map_eq.
Qed.

Lemma resolution_overwrites_witness :
  avatar (hooks (snd (run [ChangeAvatar None; Settle Samples.workingDom]
                          (start Samples.groupProps))))
  = Some Samples.pngBytes
  ∧ hasAvatarChanged
      (hooks (snd (run [ChangeAvatar None; Settle Samples.workingDom]
                       (start Samples.groupProps))))
    = true.
Proof.
  destruct (resolution_overwrites_avatar_edits
              Samples.groupProps "avatars/group.png" [ChangeAvatar None]
              Samples.workingDom Samples.pngBytes) as (Ha & Hf & _);
    try done.
Defined.

Lemma cbind_Normal {A} (c : Completion A) : cbind c (λ a, Normal a) = c.
Proof. by destruct c. Qed.

(** X5.  [imagePathToArrayBuffer] succeeds exactly when the canvas has a
    2d context, the image decodes, and the canvas of the decoded size with
    the image drawn on it converts to bytes, which are the result.  A
    missing context is reported before the image is decoded; a decoding
    error and a conversion error are passed on as they are. *)
Theorem imagePathToArrayBuffer_outcome (dom : Dom) (src : string) :
  (∀ buffer,
     imagePathToArrayBuffer dom src = Normal buffer
     ↔ getContext dom = true
       ∧ ∃ w h, decode dom src = Normal (w, h)
                ∧ canvasToArrayBuffer dom
                    {| width := w; height := h; drawn := Some src |}
                  = Normal buffer)
  ∧ (getContext dom = false →
     imagePathToArrayBuffer dom src
     = Throw {| message :=
         "imagePathToArrayBuffer: could not get canvas rendering context" |})
  ∧ (∀ err, getContext dom = true → decode dom src = Throw err →
     imagePathToArrayBuffer dom src = Throw err)
  ∧ (∀ w h err, getContext dom = true → decode dom src = Normal (w, h) →
     canvasToArrayBuffer dom {| width := w; height := h; drawn := Some src |}
     = Throw err →
     imagePathToArrayBuffer dom src = Throw err).
Proof.
  unfold imagePathToArrayBuffer.
  destruct (getContext dom); simpl.
  - destruct (decode dom src) as [[w h]|err]; simpl; rewrite ?cbind_Normal.
    + split; [|split; [|split]]; try done.
      * intros buffer. split; [eauto|].
        intros (_ & w' & h' & [= <- <-] & Hok). exact Hok.
      * intros w' h' err _ [= <- <-] Herr. exact Herr.
    + split; [|split; [|split]]; try done.
      * intros buffer. split; [done|]. intros (_ & w & h & ? & _). done.
      * congruence.
  - split; [|split; [|split]]; try done.
    intros buffer. split; [done|]. intros [? _]. done.
Qed.

(** X6.  On the first render the working avatar is the loading
    placeholder exactly when the effect starts a resolution, and is unset
    exactly when it starts none; an empty avatar path counts as none. *)
Theorem placeholder_iff_resolution_started (p : PropsType) :
  (avatar (mount p) = Some TEMPORARY_AVATAR_VALUE
   ↔ ∃ src, avatarPath p = Some src
            ∧ effect (start p) = Task src false false)
  ∧ (avatar (mount p) = None ↔ effect (start p) = NoTask)
  ∧ (avatarPath p = Some "" → avatar (mount p) = None)
  ∧ hasAvatarChanged (mount p) = false.
Proof.
  unfold start, useEffect, mount, truthy_string. simpl.
  destruct (avatarPath p) as [src|]; simpl.
  - destruct (bool_decide_reflect (src ≠ "")) as [Hne|He].
    + repeat split; try done; eauto. intros [= ->]. done.
    + repeat split; try done. intros (src' & _ & ?). done.
  - repeat split; try done. intros (src' & ? & _). done.
Qed.

(** ** The controls *)

(** X7.  The form has five controls: close, avatar input, title input,
    cancel and submit, in that order.  While a request is active every one
    of them is disabled; otherwise the first four are enabled and the
    submit button is disabled exactly when [canSubmit] fails. *)
Theorem active_request_disables_every_control
    (i18n : string → string) (s : State) (p : PropsType) :
  map fst (controls (render i18n s p))
  = [CloseControl; AvatarControl; TitleControl; CancelControl; SubmitControl]
  ∧ (requestState p = Active →
     map snd (controls (render i18n s p)) = [true; true; true; true; true])
  ∧ (requestState p ≠ Active →
     map snd (controls (render i18n s p))
     = [false; false; false; false; negb (canSubmit s p)]).
Proof.
  unfold controls, render.
  split; [|split]; intros; unfold canSubmit, isRequestActive.
  - by destruct (bool_decide (requestState p = InactiveWithError)),
      (bool_decide (requestState p = Active)).
  - rewrite bool_decide_true by done.
    by destruct (bool_decide (requestState p = InactiveWithError)).
  - rewrite bool_decide_false by done.
    by destruct (bool_decide (requestState p = InactiveWithError)).
Qed.


(** X9.  After any run, and whatever the current props, the title input
    shows the last title typed (the title of the first render when none
    was) and the avatar input shows the working avatar: a change of the
    external title while the form is open does not reach the input. *)
Theorem inputs_show_working_values
    (i18n : string → string) (p0 : PropsType) (evs : list Event)
    (p : PropsType) :
  let s := hooks (snd (run evs (start p0))) in
  titleShown (render i18n s p) = [lastTitle evs (title p0)]
  ∧ avatarShown (render i18n s p) = [avatar s].
Proof.
  intros s. unfold titleShown, avatarShown, render.
  destruct (bool_decide (requestState p = InactiveWithError)),
    (isRequestActive p); simpl; subst s; by rewrite run_title.
Qed.

End EditConversationAttributesModal_form.

(** * More of StoryViewsNRepliesModal: frame, view rows, draft, picker *)

Module StoryViewsNRepliesModal_details.
Import StoryViewsNRepliesModal.
Import StoryViewsNRepliesModal_spec.

(** What a view row shows as its time: a [MessageTimestamp], or a bare
    number. *)
Inductive Stamp :=
| Stamped (timestamp : Z)
| Literal (n : Z).

(** Further parts of the modal: the modal frame with the class names of
    its children, the labels of the tab control, a view row with the names
    and times it shows, the composition input with its draft and
    placeholder, and the reaction picker. *)
Inductive Detail :=
| Frame (moduleClassName : string) (useFocusTrap : bool)
        (wrappers : list (option string))
| TabLabels (tabs : list (Tab * string))
| ViewRow (key : option string) (names : list string) (stamps : list Stamp)
| Draft (draftText placeholder : string)
| Picker (preferredReactionEmoji : list string).

Section WithImports.

Context {AttachmentType EmojiPickDataType BodyRangeType InputApi : Type}.
Context (getAvatarColor : option string → string).
Context (getStoryReplyText :
           (string → string) → option AttachmentType → string).

#[warnings="-notation-for-abbreviation"] Local Notation Element :=
  (@Element AttachmentType).
#[warnings="-notation-for-abbreviation"] Local Notation PropsType :=
  (@PropsType AttachmentType).
#[warnings="-notation-for-abbreviation"] Local Notation State :=
  (@State InputApi).
#[warnings="-notation-for-abbreviation"] Local Notation render :=
  (StoryViewsNRepliesModal getAvatarColor getStoryReplyText).

(** [CompositionInput]'s [onEditorStateChange]. *)
Definition onEditorStateChange (messageText : string) (st : State)
    : list (@Effect EmojiPickDataType BodyRangeType InputApi) * State :=
  ([], setMessageBodyText messageText st).

Definition classOf (e : Element) : list (option string) :=
  match e with
  | Div className _ _ => [className]
  | _ => []
  end.

Definition nameOf (e : Element) : list string :=
  match e with
  | ContactName _ title => [title]
  | _ => []
  end.

Definition stampOf (e : Element) : list Stamp :=
  match e with
  | MessageTimestamp _ _ timestamp => [Stamped timestamp]
  | Number n => [Literal n]
  | _ => []
  end.

Definition detailOf (e : Element) : list Detail :=
  match e with
  | Modal moduleClassName useFocusTrap children =>
      [Frame moduleClassName useFocusTrap (flat_map classOf children)]
  | Tabs _ tabs _ => [TabLabels tabs]
  | Div (Some c) key children =>
      let inside := flat_map (nodes Views) children in
      if String.eqb c "StoryViewsNRepliesModal__view"
      then [ViewRow key (flat_map nameOf inside) (flat_map stampOf inside)]
      else []
  | CompositionInput draftText placeholder _ _ _ =>
      [Draft draftText placeholder]
  | ReactionPicker _ _ preferredReactionEmoji =>
      [Picker preferredReactionEmoji]
  | _ => []
  end.

Definition details (screen : list Element) : list Detail :=
  flat_map detailOf screen.

Definition viewRowsOf (d : Detail) : list Detail :=
  match d with
  | ViewRow _ _ _ => [d]
  | _ => []
  end.

Definition draftsOf (d : Detail) : list (string * string) :=
  match d with
  | Draft draftText placeholder => [(draftText, placeholder)]
  | _ => []
  end.

Definition pickersOf (d : Detail) : list (list string) :=
  match d with
  | Picker preferred => [preferred]
  | _ => []
  end.

Definition framesOf (d : Detail) : list Detail :=
  match d with
  | Frame _ _ _ => [d]
  | _ => []
  end.

(** The row a view is to read as: keyed by the recipient, showing the
    recipient's title, and the time of the view when there is one. *)
Definition viewRowFor (view : StorySendStateType) : Detail :=
  ViewRow (Some (id (recipient view))) [title (recipient view)]
    match updatedAt view with
    | None => []
    | Some t => if Z.eqb t 0 then [Literal t] else [Stamped t]
    end.

Definition allowed (p : PropsType) : bool :=
  negb (truthy_bool (isMyStory p)) && canReply p.

Definition composerDetails (p : PropsType) (st : State) : list Detail :=
  if allowed p then
    Draft (messageBodyText st)
          (if truthy_bool (isGroupStory p)
           then i18n p "StoryViewer__reply-group"
           else i18n p "StoryViewer__reply")
    :: (if showReactionPicker st
        then [Picker (preferredReactionEmoji p)] else [])
  else [].

Definition expectedDetails (selection : Tab → Tab) (p : PropsType)
    (st : State) : list Detail :=
  if negb (truthy_length (views p)) && negb (truthy_length (replies p))
     && negb (truthy_bool (isGroupStory p)) && negb (allowed p)
  then []
  else
    Frame "StoryViewsNRepliesModal" (allowed p)
      [Some (if truthy_bool (isGroupStory p)
             then "StoryViewsNRepliesModal--group" else "")]
    :: (if truthy_length (views p) && truthy_length (replies p) then
          TabLabels
            [(Views, i18n p "StoryViewsNRepliesModal__tab--views");
             (Replies, i18n p "StoryViewsNRepliesModal__tab--replies")]
          :: match selection Views with
             | Views => map viewRowFor (views p)
             | Replies => composerDetails p st
             end
        else map viewRowFor (views p) ++ composerDetails p st).

Lemma reply_details selection (p : PropsType) (reply : ReplyType) :
  details (nodesWith selection (replyElement getAvatarColor p reply)) = [].
Proof.
  unfold replyElement.
  destruct (truthy_string (reactionEmoji reply)),
    (truthy_bool (deletedForEveryone reply)); reflexivity.
Qed.

Lemma view_details selection (view : StorySendStateType) :
  details (nodesWith (AttachmentType := AttachmentType) selection
             (viewElement getAvatarColor view))
  = [viewRowFor view].
Proof.
  unfold viewElement, viewTimestamp, viewRowFor.
  destruct (updatedAt view) as [t|]; try destruct (Z.eqb t 0); reflexivity.
Qed.

Lemma screen_details selection (p : PropsType) (st : State) :
  details (screen (nodesWith selection) (render p st))
  = expectedDetails selection p st.
Proof.
  unfold expectedDetails, composerDetails, allowed.
  unfold StoryViewsNRepliesModal, tabsElement, viewsElement, repliesElement,
    composerElement, details.
  destruct (truthy_length (views p)) eqn:Hv;
    [|apply truthy_length_false in Hv; rewrite Hv];
    destruct (truthy_length (replies p)),
      (truthy_bool (isGroupStory p)), (truthy_bool (isMyStory p)),
      (canReply p), (showReactionPicker st);
    cbn -[replyElement viewElement];
    try destruct (selection Views);
    cbn -[replyElement viewElement];
    rewrite ?flat_map_app, ?flat_map_flat_map, ?flat_map_map;
    rewrite ?(flat_map_nil _ _ (reply_details selection p));
    rewrite ?(flat_map_singleton _ _ _ (view_details selection));
    cbn; rewrite ?app_nil_r; reflexivity.
Qed.

Lemma frames_of_view_rows (l : list StorySendStateType) :
  flat_map framesOf (map viewRowFor l) = [].
Proof. induction l as [|v l IH]; simpl; done. Qed.

Lemma drafts_of_view_rows (l : list StorySendStateType) :
  flat_map draftsOf (map viewRowFor l) = [].
Proof. induction l as [|v l IH]; simpl; done. Qed.

Lemma pickers_of_view_rows (l : list StorySendStateType) :
  flat_map pickersOf (map viewRowFor l) = [].
Proof. induction l as [|v l IH]; simpl; done. Qed.

Lemma view_rows_of_view_rows (l : list StorySendStateType) :
  flat_map viewRowsOf (map viewRowFor l) = map viewRowFor l.
Proof. induction l as [|v l IH]; simpl; [done|]. by rewrite IH. Qed.

Ltac detail_cases p st selectedTab :=
  unfold nodes; rewrite screen_details;
  unfold expectedDetails, composerDetails, allowed, composerShown;
  destruct (truthy_length (views p)) eqn:Hviews,
    (truthy_length (replies p)) eqn:Hreplies,
    (truthy_bool (isGroupStory p)), (truthy_bool (isMyStory p)),
    (canReply p), (showReactionPicker st) eqn:Hpicker;
  try destruct selectedTab;
  simpl;
  rewrite ?flat_map_app, ?frames_of_view_rows, ?drafts_of_view_rows,
    ?pickers_of_view_rows, ?view_rows_of_view_rows, ?app_nil_r;
  try reflexivity.

(** Whether all of tabs, views, replies and composer are undefined. *)
Definition nothing_to_show (p : PropsType) : bool :=
  negb (truthy_length (views p)) && negb (truthy_length (replies p))
  && negb (truthy_bool (isGroupStory p))
  && negb (negb (truthy_bool (isMyStory p)) && canReply p).

Lemma render_None (p : PropsType) (st : State) :
  render p st = None ↔ nothing_to_show p = true.
Proof.
  unfold nothing_to_show, StoryViewsNRepliesModal, tabsElement, viewsElement,
    repliesElement, composerElement.
  destruct (truthy_length (views p)), (truthy_length (replies p)),
    (truthy_bool (isGroupStory p)), (truthy_bool (isMyStory p)),
    (canReply p); simpl; split; done.
Qed.

Lemma nothing_to_show_iff (p : PropsType) :
  nothing_to_show p = true
  ↔ views p = [] ∧ replies p = []
    ∧ truthy_bool (isGroupStory p) = false
    ∧ (truthy_bool (isMyStory p) = true ∨ canReply p = false).
Proof.
  unfold nothing_to_show. rewrite <- !truthy_length_false.
  destruct (truthy_length (views p)), (truthy_length (replies p)),
    (truthy_bool (isGroupStory p)), (truthy_bool (isMyStory p)),
    (canReply p); simpl; intuition congruence.
Qed.

(** X10.  The component returns [null] exactly when there are no views,
    no replies, the story is not a group story and no composer is allowed.
    Otherwise it returns one modal, whose focus trap is on exactly when
    the composer is allowed and whose only child carries the group class
    exactly for a group story. *)
Theorem null_iff_nothing_to_show
    (p : PropsType) (st : State) (selectedTab : Tab) :
  (render p st = None
   ↔ views p = [] ∧ replies p = []
     ∧ truthy_bool (isGroupStory p) = false
     ∧ (truthy_bool (isMyStory p) = true ∨ canReply p = false))
  ∧ (render p st ≠ None →
     flat_map framesOf (details (screen (nodes selectedTab) (render p st)))
     = [Frame "StoryViewsNRepliesModal"
          (negb (truthy_bool (isMyStory p)) && canReply p)
          [Some (if truthy_bool (isGroupStory p)
                 then "StoryViewsNRepliesModal--group" else "")]]).
Proof.
  split; [by rewrite render_None, nothing_to_show_iff|].
  rewrite render_None. unfold nothing_to_show.
  detail_cases p st selectedTab; simpl; intros Hsome; by destruct Hsome.
Qed.

(** X11.  On the Views screen the view rows are, in the order of the view
    collection, one row per view, keyed by the recipient's id and showing
    the recipient's title; without replies the same rows are on screen
    whatever the tab, and with both collections the Replies tab shows
    none.  A row shows a timestamp for a non-zero [updatedAt], nothing for
    an absent one, and the bare number for a zero one. *)
Theorem views_render_in_order (p : PropsType) (st : State) :
  flat_map viewRowsOf (details (screen (nodes Views) (render p st)))
  = map viewRowFor (views p)
  ∧ (∀ selectedTab, replies p = [] →
       flat_map viewRowsOf
         (details (screen (nodes selectedTab) (render p st)))
       = map viewRowFor (views p))
  ∧ (views p ≠ [] → replies p ≠ [] →
     flat_map viewRowsOf (details (screen (nodes Replies) (render p st)))
     = [])
  ∧ (∀ view t,
       updatedAt view = Some t →
       viewRowFor view
       = ViewRow (Some (id (recipient view))) [title (recipient view)]
           [if Z.eqb t 0 then Literal 0 else Stamped t])
  ∧ (∀ view,
       updatedAt view = None →
       viewRowFor view
       = ViewRow (Some (id (recipient view))) [title (recipient view)] []).
Proof.
  split; [|split; [|split; [|split]]].
  - detail_cases p st Views;
      apply truthy_length_false in Hviews; by rewrite Hviews.
  - intros selectedTab Hr. apply truthy_length_false in Hr.
    detail_cases p st selectedTab; try done;
      apply truthy_length_false in Hviews; by rewrite Hviews.
  - intros Hv Hr. apply truthy_length_true in Hv, Hr.
    detail_cases p st Replies; done.
  - intros view t Ht. unfold viewRowFor. rewrite Ht.
    destruct (Z.eqb_spec t 0) as [->|]; done.
  - intros view Ht. unfold viewRowFor. by rewrite Ht.
Qed.

#[warnings="-notation-for-abbreviation"] Local Notation Effects :=
  (list (@Effect EmojiPickDataType BodyRangeType InputApi)).

Definition pickersOn (selectedTab : Tab) (p : PropsType) (st : State)
    : list (list string) :=
  flat_map pickersOf (details (screen (nodes selectedTab) (render p st))).

Definition draftsOn (selectedTab : Tab) (p : PropsType) (st : State)
    : list (string * string) :=
  flat_map draftsOf (details (screen (nodes selectedTab) (render p st))).

Definition repliedOf (eff : @Effect EmojiPickDataType BodyRangeType InputApi)
    : list (string * list BodyRangeType * Z) :=
  match eff with
  | OnReply message mentions timestamp => [(message, mentions, timestamp)]
  | _ => []
  end.

Definition resetOf (eff : @Effect EmojiPickDataType BodyRangeType InputApi)
    : list InputApi :=
  match eff with
  | InputApi_reset api => [api]
  | _ => []
  end.

Lemma pickers_on (selectedTab : Tab) (p : PropsType) (st : State) :
  pickersOn selectedTab p st
  = if allowed p && composerShown (λ _, selectedTab) p
       && showReactionPicker st
    then [preferredReactionEmoji p] else [].
Proof. unfold pickersOn. detail_cases p st selectedTab. Qed.

Lemma drafts_on (selectedTab : Tab) (p : PropsType) (st : State) :
  draftsOn selectedTab p st
  = if allowed p && composerShown (λ _, selectedTab) p
    then [(messageBodyText st,
           if truthy_bool (isGroupStory p)
           then i18n p "StoryViewer__reply-group"
           else i18n p "StoryViewer__reply")]
    else [].
Proof. unfold draftsOn. detail_cases p st selectedTab. Qed.

(** X12.  The reaction picker is on screen exactly when the composer is
    and the picker flag is set, and then once, offering the preferred
    reaction emoji.  It is closed at first; the trigger button toggles it
    without any callback, and toggling twice restores the hook state;
    picking a reaction closes it and reports the emoji to [onReact] once;
    closing it reports nothing. *)
Theorem reaction_picker_opens_and_closes
    (p : PropsType) (st : State) (selectedTab : Tab) (emoji : string) :
  let shown := allowed p && composerShown (λ _, selectedTab) p in
  pickersOn selectedTab p st
  = (if shown && showReactionPicker st
     then [preferredReactionEmoji p] else [])
  ∧ pickersOn selectedTab p (initialState (InputApi := InputApi)) = []
  ∧ pickersOn selectedTab p (snd (toggleReactionPicker st : Effects * State))
    = (if shown && negb (showReactionPicker st)
       then [preferredReactionEmoji p] else [])
  ∧ toggleReactionPicker st
    = (([] : Effects), setShowReactionPicker (negb (showReactionPicker st)) st)
  ∧ snd (toggleReactionPicker
           (snd (toggleReactionPicker st : Effects * State))
         : Effects * State) = st
  ∧ pickersOn selectedTab p (snd (pickReaction emoji st : Effects * State))
    = []
  ∧ fst (pickReaction emoji st : Effects * State) = [OnReact emoji]
  ∧ pickersOn selectedTab p (snd (closeReactionPicker st : Effects * State))
    = []
  ∧ fst (closeReactionPicker st : Effects * State) = [].
Proof.
  intros shown. subst shown. rewrite !pickers_on. simpl.
  rewrite !andb_false_r.
  repeat split. destruct st as [api text open]. simpl.
  by rewrite negb_involutive.
Qed.

(** X13.  The composition input shows the draft text of the hook state:
    after the editor reports a text, the input on screen (directly, or on
    the Replies tab of the tab control, when the composer is allowed)
    holds that text, with the group placeholder for a group story and the
    plain one otherwise.  Toggling, closing or using the reaction picker,
    inserting an emoji and submitting leave the draft text of the hook
    state as it is. *)
Theorem draft_shows_editor_text
    (p : PropsType) (st : State) (selectedTab : Tab) (messageText : string) :
  draftsOn selectedTab p (snd (onEditorStateChange messageText st))
  = (if allowed p && composerShown (λ _, selectedTab) p
     then [(messageText,
            if truthy_bool (isGroupStory p)
            then i18n p "StoryViewer__reply-group"
            else i18n p "StoryViewer__reply")]
     else [])
  ∧ fst (onEditorStateChange messageText st) = []
  ∧ (∀ emoji e message mentions timestamp,
       Forall (λ st', messageBodyText st' = messageBodyText st)
         [snd (toggleReactionPicker st : Effects * State);
          snd (closeReactionPicker st : Effects * State);
          snd (pickReaction emoji st : Effects * State);
          snd (insertEmoji e st : Effects * State);
          snd (focusComposer st : Effects * State);
          snd (onSubmit message mentions timestamp st : Effects * State)]).
Proof.
  rewrite drafts_on. split; [done|]. split; [done|].
  intros emoji e message mentions timestamp.
  unfold insertEmoji, focusComposer.
  destruct (inputApiRef st); repeat constructor.
Qed.

(** X14.  Submitting the composition input forwards the message, the
    mentions and the timestamp to [onReply] exactly once, as the last
    effect, whether or not an input API is attached; the input API is
    reset first when there is one, and not at all otherwise.  The hook
    state is left as it is. *)
Theorem onSubmit_always_replies
    (message : string) (mentions : list BodyRangeType) (timestamp : Z)
    (st : State) :
  let effects : Effects := fst (onSubmit message mentions timestamp st) in
  flat_map repliedOf effects = [(message, mentions, timestamp)]
  ∧ last effects = Some (OnReply message mentions timestamp)
  ∧ flat_map resetOf effects
    = match inputApiRef st with
      | Some api => [api]
      | None => []
      end
  ∧ (length effects ≤ 2)%nat
  ∧ snd (onSubmit message mentions timestamp st : Effects * State) = st.
Proof.
  intros effects. subst effects. unfold onSubmit.
  destruct (inputApiRef st); simpl; repeat split; lia.
Qed.

(** X15.  Whatever the inputs and the selected tab, at most one of the
    views list, the replies list and the no-replies placeholder is on
    screen; none of them is exactly when there are no views, no replies
    and the story is not a group story. *)
Theorem one_list_at_a_time
    (p : PropsType) (st : State) (selectedTab : Tab) :
  let shown := screen (nodes selectedTab) (render p st) in
  (occurrences ViewsList shown + occurrences RepliesList shown
   + occurrences NoRepliesPlaceholder shown ≤ 1)%nat
  ∧ ((occurrences ViewsList shown + occurrences RepliesList shown
      + occurrences NoRepliesPlaceholder shown = 0)%nat
     ↔ views p = [] ∧ replies p = []
       ∧ truthy_bool (isGroupStory p) = false).
Proof.
  intros shown. subst shown. unfold nodes.
  rewrite count_ViewsList, count_RepliesList, count_NoRepliesPlaceholder.
  rewrite <- !truthy_length_false.
  destruct (truthy_length (views p)), (truthy_length (replies p)),
    (truthy_bool (isGroupStory p)), selectedTab; simpl;
    (split; [lia|]); intuition (congruence || lia).
Qed.

End WithImports.

End StoryViewsNRepliesModal_details.
